(** * Drug-interaction checker: the synthetic case generator and the
      training driver

    A shallow embedding of [generate_training_data.py] and
    [train_ml_model.py].

    Conventions of the model.
    - Python [int] and numpy integers are [Z]; Python and numpy floats are
      exact rationals [Q], compared with [==]; rounding to binary64 is
      modelled where a result depends on it, in [np.random.uniform].
    - Python exceptions are values of [exn]; a computation that may raise
      returns a [result].
    - The two random generators the code seeds ([np.random] and [random])
      are library code.  They are interfaces here ([NumpyRandom],
      [PyRandom]) whose laws are the documented contracts of the library
      calls; [np.random.choice] and [np.random.uniform] are written out on
      top of [np.random.random] the way numpy computes them.
    - [datetime.now()] reads the wall clock: the generator takes the
      readings as an argument, one per loop iteration.
    - [print] calls of the generator are not modelled; those of the training
      driver are, as a trace of messages. *)

From Stdlib Require Import ZArith QArith Qround Qminmax List String Ascii Bool.
From Stdlib Require Import Lia Lqa DecimalString Permutation.
Import ListNotations.

Open Scope Z_scope.

(** ** Python values used by both scripts *)

Module Py.

(** The exception classes that occur.  [KeyboardInterrupt], [SystemExit]
    and [CancelledError] derive from [BaseException] only. *)
Inductive exn : Type :=
| FileNotFoundError
| PermissionError
| JSONDecodeError
| KeyError (key : string)
| IndexError
| TypeError
| ValueError
| ZeroDivisionError
| RuntimeError (msg : string)
| KeyboardInterrupt
| SystemExit
| CancelledError.

(** [isinstance(e, Exception)] *)
Definition is_Exception (e : exn) : bool :=
  match e with
  | KeyboardInterrupt | SystemExit | CancelledError => false
  | _ => true
  end.

Inductive result (A : Type) : Type :=
| Ok (a : A)
| Raise (e : exn).
Arguments Ok {A} a.
Arguments Raise {A} e.

(** [x < y] on floats *)
Definition Qltb (x y : Q) : bool := negb (Qle_bool y x).

(** [int(x)] on a float: truncation toward zero *)
Definition int (x : Q) : Z :=
  if Qle_bool 0 x then Qfloor x else Qceiling x.

(** [str(n)] for a non-negative integer, as an f-string renders it *)
Definition str (n : nat) : string :=
  NilEmpty.string_of_uint (Nat.to_uint n).

(** [enumerate(l)] *)
Fixpoint enumerate_from {A} (j : nat) (l : list A) : list (nat * A) :=
  match l with
  | [] => []
  | x :: l' => (j, x) :: enumerate_from (S j) l'
  end.
Definition enumerate {A} (l : list A) : list (nat * A) := enumerate_from 0 l.

(** [range(n)] for an integer [n]: empty when [n <= 0] *)
Definition range (n : Z) : list nat := seq 0 (Z.to_nat n).

(** [sum] of a list of floats *)
Definition Qsum (l : list Q) : Q := fold_left Qplus l 0%Q.

End Py.
Import Py.

(** A naive [datetime], in microseconds since the epoch; [isoformat] is a
    one-to-one rendering of it, so the value stands for the string. *)
Definition datetime := Z.
Definition timedelta_days (d : Z) : Z := d * 86400 * 1000000.

(** ** The random sources *)

(** The state of numpy's global generator and the primitive draws the script
    uses.  Laws: [np.random.random()] lies in the half-open interval [0, 1)
    and a Poisson draw is a non-negative integer. *)
Class NumpyRandom : Type := {
  np_state : Type;
  np_seed : Z -> np_state;
  np_random : np_state -> Q * np_state;
  np_poisson : Q -> np_state -> Z * np_state;
  np_normal : Q -> Q -> np_state -> Q * np_state;
  np_random_range : forall s, (0 <= fst (np_random s) /\ fst (np_random s) < 1)%Q;
  np_poisson_nonneg : forall lam s, (0 <= lam)%Q -> 0 <= fst (np_poisson lam s)
}.

(** The state of Python's [random] module.  [py_sample population k] is
    [random.sample] for [0 <= k <= len(population)]; [py_randint a b] is
    [random.randint] for [a <= b]. *)
Class PyRandom : Type := {
  py_state : Type;
  py_seed : Z -> py_state;
  py_sample : list string -> nat -> py_state -> list string * py_state;
  py_randint : Z -> Z -> py_state -> Z * py_state;
  py_sample_length : forall pop k s,
      (k <= List.length pop)%nat -> List.length (fst (py_sample pop k s)) = k;
  py_randint_range : forall a b s,
      a <= b -> a <= fst (py_randint a b s) <= b
}.

(** ** The data model of [generate_training_data.py] *)

Record Drug : Type := { drug_id : string; drug_name : string }.

Record SeveritySummary : Type := {
  CONTRAINDICATED : Z;
  SERIOUS : Z;
  SIGNIFICANT : Z;
  MINOR : Z
}.

(** The dictionary [example] built at the end of each iteration. *)
Record Example : Type := {
  drugs_checked : list Drug;
  severity_summary : SeveritySummary;
  allergy_alerts : list string;
  patient_age : Z;
  has_renal_impairment : bool;
  has_hepatic_impairment : bool;
  num_chronic_conditions : Z;
  adverse_event_occurred : Z;
  risk_score : Q;
  adverse_event_probability : Q;
  age_group : string;
  generated_at : datetime
}.

(** The local variables of one iteration after the feature draws
    (lines 47-107). *)
Record Features : Type := {
  f_num_drugs : Z;
  f_selected_drugs : list string;
  f_num_contraindicated : Z;
  f_num_serious : Z;
  f_num_significant : Z;
  f_num_minor : Z;
  f_age_group : string;
  f_patient_age : Z;
  f_has_renal_impairment : bool;
  f_has_hepatic_impairment : bool;
  f_num_chronic_conditions : Z;
  f_num_allergies : Z
}.

Definition f_is_geriatric (f : Features) : bool := 65 <=? f_patient_age f.
Definition f_polypharmacy (f : Features) : bool := 5 <=? f_num_drugs f.

(** The ranges of the feature draws of one iteration. *)
Record feature_inv (f : Features) : Prop := {
  inv_num_drugs : 1 <= f_num_drugs f <= 10;
  inv_selected_drugs : Z.of_nat (List.length (f_selected_drugs f)) = f_num_drugs f;
  inv_num_contraindicated : 0 <= f_num_contraindicated f <= 2;
  inv_num_serious : 0 <= f_num_serious f <= 3;
  inv_num_significant : 0 <= f_num_significant f <= f_num_drugs f;
  inv_num_minor : 0 <= f_num_minor f <= 2 * f_num_drugs f;
  inv_patient_age : 18 <= f_patient_age f <= 95;
  inv_num_chronic_conditions : 0 <= f_num_chronic_conditions f <= 6;
  inv_num_allergies : 0 <= f_num_allergies f <= 3
}.

Definition common_drugs : list string :=
  ["Warfarin"; "Aspirin"; "Metformin"; "Lisinopril"; "Amlodipine";
   "Atorvastatin"; "Omeprazole"; "Metoprolol"; "Levothyroxine"; "Losartan";
   "Gabapentin"; "Hydrochlorothiazide"; "Albuterol"; "Sertraline";
   "Furosemide"]%string.

(** ** The rule-based score and the label probability (pure part) *)

Open Scope Q_scope.

(** Lines 110-134: the score before the cap. *)
Definition pre_clamp_risk_score (f : Features) : Q :=
  let risk_score := 0 in
  let risk_score := risk_score + inject_Z (f_num_contraindicated f * 30) in
  let risk_score := risk_score + inject_Z (f_num_serious f * 15) in
  let risk_score := risk_score + inject_Z (f_num_significant f * 7) in
  let risk_score := risk_score + inject_Z (f_num_minor f * 2) in
  let risk_score :=
    if (80 <=? f_patient_age f)%Z then risk_score * 1.4
    else if f_is_geriatric f then risk_score * 1.3
    else risk_score in
  let risk_score :=
    if f_has_renal_impairment f then risk_score * 1.25 else risk_score in
  let risk_score :=
    if f_has_hepatic_impairment f then risk_score * 1.25 else risk_score in
  let risk_score :=
    if f_polypharmacy f then risk_score * 1.2 else risk_score in
  let risk_score := risk_score + inject_Z (f_num_allergies f * 10) in
  let risk_score := risk_score + inject_Z (f_num_chronic_conditions f * 3) in
  risk_score.

(** Line 137: [risk_score = min(risk_score, 100)]. *)
Definition rule_based_risk_score (f : Features) : Q :=
  Qmin (pre_clamp_risk_score f) 100.

(** Lines 143-157: [base_prob] before the noise is added. *)
Definition base_probability (f : Features) (risk_score : Q) : Q :=
  let base_prob := risk_score / 100 in
  let base_prob :=
    if (0 <? f_num_contraindicated f)%Z then Qmin (base_prob * 2.5) 0.95
    else if (0 <? f_num_serious f)%Z then Qmin (base_prob * 1.8) 0.85
    else base_prob in
  let base_prob :=
    if f_is_geriatric f then Qmin (base_prob * 1.3) 0.90 else base_prob in
  let base_prob :=
    if f_has_renal_impairment f || f_has_hepatic_impairment f
    then Qmin (base_prob * 1.2) 0.90 else base_prob in
  base_prob.

(** Line 161: [max(0.0, min(1.0, base_prob + noise))]. *)
Definition final_probability (base_prob noise : Q) : Q :=
  Qmax 0.0 (Qmin 1.0 (base_prob + noise)).

Close Scope Q_scope.

(** ** Rounding to binary64

    Most float operations of the scripts are modelled exactly (see above).
    [np.random.uniform] is not: whether its result reaches the upper bound
    depends on the rounding of [low + (high - low) * u], so both operations
    round to the nearest binary64 number, ties to even.  Overflow and
    subnormal numbers are left out: the values here are far from both. *)

(** The nearest integer, ties to the even one. *)
Definition round_half_even (x : Q) : Z :=
  let n := Qfloor x in
  let frac := (x - inject_Z n)%Q in
  if Qltb frac 0.5 then n
  else if Qltb 0.5 frac then n + 1
  else if Z.even n then n else n + 1.


(** [floor(log2 x)] for [x > 0]: the exponent of the binade of [x]. *)
Definition binade (x : Q) : Z :=
  if Qle_bool 1 x then Z.log2 (Qfloor x)
  else - Z.log2_up (Qceiling (/ x)).

(** The nearest number with a 53-bit significand, for [x > 0]. *)
Definition round64_pos (x : Q) : Q :=
  let k := binade x in
  if k <=? 52
  then (inject_Z (round_half_even (x * inject_Z (2 ^ (52 - k))))
        / inject_Z (2 ^ (52 - k)))%Q
  else (inject_Z (round_half_even (x / inject_Z (2 ^ (k - 52))))
        * inject_Z (2 ^ (k - 52)))%Q.

Definition round64 (x : Q) : Q :=
  if Qeq_bool x 0 then 0%Q
  else if Qltb x 0 then (- round64_pos (- x))%Q
  else round64_pos x.

(** ** A state-and-exception monad for code that draws random numbers *)

Definition M (S A : Type) : Type := S -> result (A * S).

Definition ret {S A} (a : A) : M S A := fun s => Ok (a, s).

Definition raise {S A} (e : exn) : M S A := fun _ => Raise e.

Definition bind {S A B} (m : M S A) (k : A -> M S B) : M S B :=
  fun s => match m s with
           | Ok (a, s') => k a s'
           | Raise e => Raise e
           end.

Notation "x <- m ;; k" := (bind m (fun x => k))
  (at level 61, m at next level, right associativity).
Notation "' pat <- m ;; k" := (bind m (fun x => match x with pat => k end))
  (at level 61, pat pattern, m at next level, right associativity).

(** Total correctness: [m] returns from [s], and the value and final state
    satisfy [post]. *)
Definition wp {S A} (m : M S A) (post : A -> S -> Prop) (s : S) : Prop :=
  match m s with
  | Ok (a, s') => post a s'
  | Raise _ => False
  end.

(** [p.cumsum()] *)
Fixpoint cumsum_from (acc : Q) (p : list Q) : list Q :=
  match p with
  | [] => []
  | x :: p' => (acc + x)%Q :: cumsum_from (acc + x)%Q p'
  end.
Definition cumsum (p : list Q) : list Q := cumsum_from 0%Q p.

(** [cdf.searchsorted(u, side='right')] on a sorted [cdf]: the number of
    entries that are [<= u]. *)
Definition searchsorted_right (cdf : list Q) (u : Q) : nat :=
  List.length (filter (fun c => Qle_bool c u) cdf).

Section Generator.

Context {NP : NumpyRandom} {PR : PyRandom}.

(** Both generators' states. *)
Record World : Type := { np : np_state; py : py_state }.

Definition Gen (A : Type) : Type := M World A.

(** [np.random.random()] *)
Definition rand : Gen Q :=
  fun w => let (u, s) := np_random (np w) in Ok (u, {| np := s; py := py w |}).

(** [np.random.poisson(lam)]; numpy rejects [lam < 0] *)
Definition poisson (lam : Q) : Gen Z :=
  if Qltb lam 0 then raise ValueError
  else fun w => let (k, s) := np_poisson lam (np w) in
                Ok (k, {| np := s; py := py w |}).

(** [np.random.normal(loc, scale)]; numpy rejects [scale < 0] *)
Definition normal (loc scale : Q) : Gen Q :=
  if Qltb scale 0 then raise ValueError
  else fun w => let (x, s) := np_normal loc scale (np w) in
                Ok (x, {| np := s; py := py w |}).

(** [np.random.uniform(low, high)] is [low + (high - low) * random()],
    computed in binary64: the difference, the product and the sum are each
    rounded.  [low] and [high] are binary64 numbers. *)
Definition uniform (low high : Q) : Gen Q :=
  u <- rand ;;
  ret (round64 (low + round64 (round64 (high - low) * u)))%Q.

(** [np.random.choice(a, p=p)]: after its argument checks numpy draws one
    uniform sample and looks it up in the cumulative distribution.  (With
    probabilities that sum to 1 the normalisation [cdf /= cdf[-1]] changes
    nothing and is left out.) *)
Definition choice {A} (a : list A) (p : list Q) : Gen A :=
  if negb (List.length a =? List.length p)%nat then raise ValueError
  else if existsb (fun x => Qltb x 0) p then raise ValueError
  else if negb (Qeq_bool (Qsum p) 1) then raise ValueError
  else
    u <- rand ;;
    match nth_error a (searchsorted_right (cumsum p) u) with
    | Some v => ret v
    | None => raise IndexError
    end.

(** [random.sample(population, k)] *)
Definition random_sample (population : list string) (k : Z) : Gen (list string) :=
  if (k <? 0) || (Z.of_nat (List.length population) <? k) then raise ValueError
  else fun w => let (l, s) := py_sample population (Z.to_nat k) (py w) in
                Ok (l, {| np := np w; py := s |}).

(** [random.randint(a, b)] *)
Definition random_randint (a b : Z) : Gen Z :=
  if b <? a then raise ValueError
  else fun w => let (r, s) := py_randint a b (py w) in
                Ok (r, {| np := np w; py := s |}).

(** Lines 47-107 of the loop body: the feature draws. *)
Definition draw_features : Gen Features :=
  num_drugs <- choice [1; 2; 3; 4; 5; 6; 7; 8; 9; 10]
                 [0.05; 0.15; 0.20; 0.20; 0.15; 0.10; 0.07; 0.05; 0.02; 0.01]%Q ;;
  selected_drugs <- random_sample common_drugs
                      (Z.min num_drugs (Z.of_nat (List.length common_drugs))) ;;
  num_contraindicated <-
    (if 5 <=? num_drugs then choice [0; 1; 2] [0.80; 0.15; 0.05]%Q
     else if 3 <=? num_drugs then choice [0; 1] [0.95; 0.05]%Q
     else ret 0) ;;
  num_serious <-
    (if 4 <=? num_drugs then choice [0; 1; 2; 3] [0.50; 0.30; 0.15; 0.05]%Q
     else if 2 <=? num_drugs then choice [0; 1; 2] [0.70; 0.25; 0.05]%Q
     else ret 0) ;;
  num_significant <-
    (if 2 <=? num_drugs then
       num_significant <- poisson (inject_Z num_drugs * 0.3)%Q ;;
       ret (Z.min num_significant num_drugs)
     else ret 0) ;;
  num_minor <- poisson (inject_Z num_drugs * 0.4)%Q ;;
  let num_minor := Z.min num_minor (num_drugs * 2) in
  age_group <- choice ["young"; "middle"; "elderly"]%string [0.15; 0.35; 0.50]%Q ;;
  patient_age <-
    (if (age_group =? "young")%string then
       x <- uniform 18 40 ;; ret (int x)
     else if (age_group =? "middle")%string then
       x <- uniform 40 65 ;; ret (int x)
     else
       x <- uniform 65 95 ;; ret (int x)) ;;
  let is_geriatric := 65 <=? patient_age in
  ' (has_renal_impairment, has_hepatic_impairment, num_chronic_conditions) <-
    (if is_geriatric then
       r <- rand ;;
       h <- rand ;;
       c <- choice [0; 1; 2; 3; 4; 5; 6]
              [0.05; 0.15; 0.25; 0.25; 0.15; 0.10; 0.05]%Q ;;
       ret (Qltb r 0.25, Qltb h 0.15, c)
     else
       r <- rand ;;
       h <- rand ;;
       c <- choice [0; 1; 2; 3] [0.40; 0.35; 0.20; 0.05]%Q ;;
       ret (Qltb r 0.08, Qltb h 0.05, c)) ;;
  num_allergies <- choice [0; 1; 2; 3] [0.70; 0.20; 0.08; 0.02]%Q ;;
  ret {| f_num_drugs := num_drugs;
         f_selected_drugs := selected_drugs;
         f_num_contraindicated := num_contraindicated;
         f_num_serious := num_serious;
         f_num_significant := num_significant;
         f_num_minor := num_minor;
         f_age_group := age_group;
         f_patient_age := patient_age;
         f_has_renal_impairment := has_renal_impairment;
         f_has_hepatic_impairment := has_hepatic_impairment;
         f_num_chronic_conditions := num_chronic_conditions;
         f_num_allergies := num_allergies |}.

(** Lines 160-169: the noise, the outcome draw and the override for safe
    regimens.  Returns [(final_prob, adverse_event_occurred)]. *)
Definition draw_outcome (f : Features) (risk_score base_prob : Q) : Gen (Q * Z) :=
  noise <- normal 0 0.1 ;;
  let final_prob := final_probability base_prob noise in
  u <- rand ;;
  let adverse_event_occurred := if Qltb u final_prob then 1 else 0 in
  adverse_event_occurred <-
    (if (f_num_contraindicated f =? 0) && (f_num_serious f =? 0)
        && Qltb risk_score 20
     then
       u' <- rand ;;
       ret (if Qltb u' 0.92 then 0 else adverse_event_occurred)
     else ret adverse_event_occurred) ;;
  ret (final_prob, adverse_event_occurred).

(** Lines 172-196: the dictionary of one example.  [now] is the reading of
    [datetime.now()], [days] the value of [random.randint(0, 365)]. *)
Definition make_example (f : Features) (risk_score final_prob : Q)
    (adverse_event_occurred : Z) (now : datetime) (days : Z) : Example :=
  {| drugs_checked :=
       map (fun jd => {| drug_id := String.append "DRUG_" (str (fst jd));
                         drug_name := snd jd |})
           (enumerate (f_selected_drugs f));
     severity_summary :=
       {| CONTRAINDICATED := f_num_contraindicated f;
          SERIOUS := f_num_serious f;
          SIGNIFICANT := f_num_significant f;
          MINOR := f_num_minor f |};
     allergy_alerts :=
       map (fun j => String.append "ALLERGY_" (str j)) (range (f_num_allergies f));
     patient_age := f_patient_age f;
     has_renal_impairment := f_has_renal_impairment f;
     has_hepatic_impairment := f_has_hepatic_impairment f;
     num_chronic_conditions := f_num_chronic_conditions f;
     adverse_event_occurred := adverse_event_occurred;
     risk_score := risk_score;
     adverse_event_probability := final_prob;
     age_group := f_age_group f;
     generated_at := now - timedelta_days days |}.

(** One iteration of the loop (lines 47-196). *)
Definition generate_example (now : datetime) : Gen Example :=
  f <- draw_features ;;
  let risk_score := rule_based_risk_score f in
  let base_prob := base_probability f risk_score in
  ' (final_prob, adverse_event_occurred) <- draw_outcome f risk_score base_prob ;;
  days <- random_randint 0 365 ;;
  ret (make_example f risk_score final_prob adverse_event_occurred now days).

(** [for i in range(n_samples): ... training_data.append(example)];
    [clock i] is what [datetime.now()] returns in iteration [i]. *)
Fixpoint for_each (clock : nat -> datetime) (iterations : list nat)
    (training_data : list Example) : Gen (list Example) :=
  match iterations with
  | [] => ret training_data
  | i :: rest =>
      example <- generate_example (clock i) ;;
      for_each clock rest (training_data ++ [example])
  end.

(** The state after [np.random.seed(42)] and [random.seed(42)]. *)
Definition seeded : World := {| np := np_seed 42; py := py_seed 42 |}.

Definition generate_synthetic_training_data (clock : nat -> datetime)
    (n_samples : Z) : result (list Example) :=
  match for_each clock (range n_samples) [] seeded with
  | Ok (training_data, _) => Ok training_data
  | Raise e => Raise e
  end.

(** What the iteration started in [w] at clock reading [now] builds. *)
Definition produced_by (now : datetime) (w : World) (e : Example) : Prop :=
  exists f w1 label days,
    draw_features w = Ok (f, w1) /\ feature_inv f
    /\ (label = 0 \/ label = 1) /\ 0 <= days <= 365
    /\ e = make_example f (rule_based_risk_score f)
             (final_probability
                (base_probability f (rule_based_risk_score f))
                (fst (np_normal 0 0.1 (np w1))))
             label now days.

(** A record that some iteration of a run under [clock] returned. *)
Definition generated (clock : nat -> datetime) (e : Example) : Prop :=
  exists i w w', generate_example (clock i) w = Ok (e, w').

(** The random states at the start of iteration [i]: what iterations
    [0 .. i-1] leave behind. *)
Definition world_before (clock : nat -> datetime) (i : nat) : result World :=
  match for_each clock (seq 0 i) [] seeded with
  | Ok (_, w) => Ok w
  | Raise e => Raise e
  end.

End Generator.

(** ** [save_training_data] *)

(** [round(x, 1)] on a float: to the nearest tenth, ties to the even one. *)
Definition round1 (x : Q) : Q := (inject_Z (round_half_even (x * 10)) / 10)%Q.

(** [s.replace(old, new)] for a non-empty [old]: every non-overlapping
    occurrence, left to right.  [skip] counts the characters of a matched
    occurrence still to be dropped. *)
Fixpoint replace_from (old new : string) (skip : nat) (s : string) : string :=
  match s with
  | EmptyString => EmptyString
  | String c s' =>
      match skip with
      | S k => replace_from old new k s'
      | O =>
          if String.prefix old s
          then String.append new (replace_from old new (String.length old - 1) s')
          else String c (replace_from old new 0 s')
      end
  end.
Definition replace (old new s : string) : string := replace_from old new 0 s.

(** A cell of the table: the integers and the one float of a row. *)
Inductive cell : Type :=
| CInt (z : Z)
| CFloat (q : Q).

(** [int(b)] for a boolean *)
Definition int_of_bool (b : bool) : Z := if b then 1 else 0.

(** Lines 275-290: the dictionary [row], in insertion order. *)
Definition csv_row (example : Example) : list (string * cell) :=
  [ ("num_drugs", CInt (Z.of_nat (List.length (drugs_checked example))));
    ("num_contraindicated", CInt (CONTRAINDICATED (severity_summary example)));
    ("num_serious", CInt (SERIOUS (severity_summary example)));
    ("num_significant", CInt (SIGNIFICANT (severity_summary example)));
    ("num_minor", CInt (MINOR (severity_summary example)));
    ("patient_age", CInt (patient_age example));
    ("is_geriatric", CInt (int_of_bool (65 <=? patient_age example)%Z));
    ("has_renal_impairment", CInt (int_of_bool (has_renal_impairment example)));
    ("has_hepatic_impairment", CInt (int_of_bool (has_hepatic_impairment example)));
    ("num_chronic_conditions", CInt (num_chronic_conditions example));
    ("num_allergies", CInt (Z.of_nat (List.length (allergy_alerts example))));
    ("polypharmacy",
       CInt (int_of_bool (5 <=? Z.of_nat (List.length (drugs_checked example)))%Z));
    ("risk_score", CFloat (round1 (risk_score example)));
    ("adverse_event", CInt (adverse_event_occurred example)) ]%string.

(** [pd.DataFrame(list_of_dicts)]: the columns are the keys in order of first
    appearance; a cell is the row's value for the column, missing ([NaN])
    when the row has no such key. *)
Record DataFrame : Type := {
  columns : list string;
  values : list (list (option cell))
}.

Definition add_key (cols : list string) (k : string) : list string :=
  if existsb (String.eqb k) cols then cols else cols ++ [k].

Definition lookup {V} (k : string) (d : list (string * V)) : option V :=
  option_map snd (find (fun kv => String.eqb k (fst kv)) d).

Definition make_DataFrame (df_data : list (list (string * cell))) : DataFrame :=
  let cols := fold_left (fun cols row => fold_left add_key (map fst row) cols)
                        df_data [] in
  {| columns := cols;
     values := map (fun row => map (fun c => lookup c row) cols) df_data |}.

(** What a file holds: the JSON document (the list of examples, every field)
    or the table written by [to_csv(index=False)] (header and rows). *)
Inductive file_content : Type :=
| JsonDocument (training_data : list Example)
| CsvTable (df : DataFrame).

Definition FileSystem : Type := list (string * file_content).

(** [open(name, 'w')] followed by a write: the file is created or replaced. *)
Definition write_file (name : string) (c : file_content) (fs : FileSystem)
  : FileSystem :=
  (name, c) :: filter (fun nc => negb (String.eqb name (fst nc))) fs.

Definition read_file (name : string) (fs : FileSystem) : option file_content :=
  lookup name fs.

Definition save_training_data (training_data : list Example) (filename : string)
    (fs : FileSystem) : FileSystem :=
  let fs := write_file filename (JsonDocument training_data) fs in
  let df_data := map csv_row training_data in
  let df := make_DataFrame df_data in
  let csv_filename := replace ".json" ".csv" filename in
  write_file csv_filename (CsvTable df) fs.

(** The default value of the [filename] argument. *)
Definition default_filename : string := "training_data.json".

(** ** [train_ml_model.py]: the training driver *)

Module Driver.

(** A value stored under a key of a loaded example: a number, a boolean,
    or anything else JSON can hold. *)
Inductive value : Type :=
| VInt (z : Z)
| VFloat (q : Q)
| VBool (b : bool)
| VOther.

(** An example as [json.load] returns it: a dictionary with string keys.
    (The file is taken to hold a list of JSON objects; a list that holds
    numbers, strings or arrays is outside the model.) *)
Definition dict : Type := list (string * value).

(** The dictionary [train_model] of the predictor returns; the driver reads
    these six keys. *)
Record Metrics : Type := {
  accuracy : Q;
  precision : Q;
  recall : Q;
  roc_auc : Q;
  training_samples : Z;
  test_samples : Z
}.

(** The attributes of a prediction the driver prints. *)
Record PredictionResult : Type := {
  pr_risk_score : Q;
  pr_risk_category : string;
  pr_probability_adverse_event : Q;
  pr_confidence : Q
}.

(** What the driver depends on: the file [training_data.json] (the outcome
    of [open] and [json.load]) and the object [risk_predictor] imported from
    [services.ml_risk_predictor]. *)
Record Environment : Type := {
  load_training_data : result (list dict);
  rp_train_model : list dict -> result Metrics;
  rp_feature_importance : list (string * Q);
  rp_predict_risk : dict -> result PredictionResult
}.

(** One constructor per group of [print] calls. *)
Inductive message : Type :=
| MsgBanner
| MsgLoading
| MsgLoaded (count : nat)
| MsgFileNotFound
| MsgInvalidJSON
| MsgValidating
| MsgMissingField (field : string) (idx : nat)
| MsgStructureValid
| MsgDataSummary (total : nat) (adverse_events no_events adverse_rate : Q)
| MsgClassImbalance (adverse_rate : Q)
| MsgClassBalanceOk
| MsgTraining
| MsgTrainingComplete (m : Metrics) (interpretation : list string)
| MsgDatasetSplit (m : Metrics) (test_ratio : Q)
| MsgTopFeatures (top : list (string * Q * Z))
| MsgModelSaved
| MsgTestingPrediction
| MsgSamplePrediction (r : PredictionResult)
| MsgTrainingSuccessful
| MsgErrorDuringTraining (e : exn)
| MsgTroubleshooting
| MsgTraceback (e : exn)
| MsgInterrupted
| MsgUnexpectedError (e : exn).

(** What the process does that can be observed. *)
Inductive event : Type :=
| Print (m : message)
| CallTrainModel (training_data : list dict)
| CallPredictRisk (test_data : dict).

(** Code that prints and may raise: the trace is kept when it raises. *)
Definition IO (A : Type) : Type := list event -> result A * list event.

Definition io_ret {A} (a : A) : IO A := fun t => (Ok a, t).
Definition io_raise {A} (e : exn) : IO A := fun t => (Raise e, t).
Definition io_bind {A B} (m : IO A) (k : A -> IO B) : IO B :=
  fun t => match m t with
           | (Ok a, t') => k a t'
           | (Raise e, t') => (Raise e, t')
           end.
Definition emit (ev : event) : IO unit := fun t => (Ok tt, t ++ [ev]).
Definition print (m : message) : IO unit := emit (Print m).
Definition lift {A} (r : result A) : IO A := fun t => (r, t).

(** [try: body  except Exception as e: handler e] *)
Definition try_except_Exception {A} (body : IO A) (handler : exn -> IO A) : IO A :=
  fun t => match body t with
           | (Ok a, t') => (Ok a, t')
           | (Raise e, t') =>
               if is_Exception e then handler e t' else (Raise e, t')
           end.

Notation "x <-- m ;; k" := (io_bind m (fun x => k))
  (at level 61, m at next level, right associativity).
Notation "m ;;; k" := (io_bind m (fun _ => k))
  (at level 61, right associativity).

Definition required_fields : list string :=
  ["drugs_checked"; "severity_summary"; "allergy_alerts";
   "patient_age"; "has_renal_impairment"; "has_hepatic_impairment";
   "num_chronic_conditions"; "adverse_event_occurred"]%string.

(** [field in example] *)
Definition has_key (field : string) (example : dict) : bool :=
  existsb (fun kv => String.eqb field (fst kv)) example.

(** Lines 51-55: the first [(idx, field)] the two nested loops report, if
    any. *)
Fixpoint first_missing_field (examples : list (nat * dict))
  : option (nat * string) :=
  match examples with
  | [] => None
  | (idx, example) :: rest =>
      match find (fun field => negb (has_key field example)) required_fields with
      | Some field => Some (idx, field)
      | None => first_missing_field rest
      end
  end.

(** [sum(ex['adverse_event_occurred'] for ex in training_data)] *)
Fixpoint sum_adverse_events (acc : Q) (training_data : list dict) : result Q :=
  match training_data with
  | [] => Ok acc
  | ex :: rest =>
      match lookup "adverse_event_occurred" ex with
      | None => Raise (KeyError "adverse_event_occurred")
      | Some (VInt z) => sum_adverse_events (acc + inject_Z z)%Q rest
      | Some (VFloat q) => sum_adverse_events (acc + q)%Q rest
      | Some (VBool b) => sum_adverse_events (acc + inject_Z (int_of_bool b))%Q rest
      | Some VOther => Raise TypeError
      end
  end.

Definition _interpret_accuracy (score : Q) : string :=
  if Qle_bool 0.90 score then "Excellent"
  else if Qle_bool 0.80 score then "Good"
  else if Qle_bool 0.70 score then "Fair"
  else "Needs improvement".

Definition _interpret_precision (score : Q) : string :=
  if Qle_bool 0.85 score then "Excellent"
  else if Qle_bool 0.75 score then "Good"
  else if Qle_bool 0.65 score then "Fair"
  else "Low".

Definition _interpret_recall (score : Q) : string :=
  if Qle_bool 0.85 score then "Excellent"
  else if Qle_bool 0.75 score then "Good"
  else if Qle_bool 0.65 score then "Fair"
  else "Low - may miss events".

Definition _interpret_roc_auc (score : Q) : string :=
  if Qle_bool 0.90 score then "Excellent"
  else if Qle_bool 0.80 score then "Good"
  else if Qle_bool 0.70 score then "Fair"
  else "Poor".

(** [sorted(items, key=lambda x: x[1], reverse=True)]: stable, by
    decreasing importance. *)
Fixpoint insert_desc (x : string * Q) (l : list (string * Q)) : list (string * Q) :=
  match l with
  | [] => [x]
  | y :: l' => if Qle_bool (snd y) (snd x) then x :: l else y :: insert_desc x l'
  end.
Definition sorted_desc (items : list (string * Q)) : list (string * Q) :=
  fold_right insert_desc [] items.

(** Lines 81-143: the body of the [try] block. *)
Definition training_steps (env : Environment) (training_data : list dict) : IO unit :=
  emit (CallTrainModel training_data) ;;;
  metrics <-- lift (rp_train_model env training_data) ;;
  print (MsgTrainingComplete metrics
           [_interpret_accuracy (accuracy metrics);
            _interpret_precision (precision metrics);
            _interpret_recall (recall metrics);
            _interpret_roc_auc (roc_auc metrics)]) ;;;
  (if (training_samples metrics + test_samples metrics =? 0)
   then io_raise ZeroDivisionError
   else print (MsgDatasetSplit metrics
                 (inject_Z (test_samples metrics)
                  / inject_Z (training_samples metrics + test_samples metrics)
                  * 100)%Q)) ;;;
  (match rp_feature_importance env with
   | [] => io_ret tt
   | _ =>
       let sorted_features := sorted_desc (rp_feature_importance env) in
       print (MsgTopFeatures
                (map (fun fi => (fst fi, snd fi, int (snd fi * 30)%Q))
                     (firstn 5 sorted_features)))
   end) ;;;
  print MsgModelSaved ;;;
  print MsgTestingPrediction ;;;
  test_data <-- lift (match training_data with
                      | ex :: _ => Ok ex
                      | [] => Raise IndexError
                      end) ;;
  emit (CallPredictRisk test_data) ;;;
  result <-- lift (rp_predict_risk env test_data) ;;
  print (MsgSamplePrediction result) ;;;
  print MsgTrainingSuccessful.

(** Lines 145-156: the handler of [except Exception as e]. *)
Definition training_failed (e : exn) : IO unit :=
  print (MsgErrorDuringTraining e) ;;;
  print MsgTroubleshooting ;;;
  print (MsgTraceback e).

(** [train_model()].  An early [return] ends the function: the branch that
    takes it has no continuation.  The class-balance arithmetic is exact:
    labels too large for a binary64 number, on which the division raises
    [OverflowError], are outside the model. *)
Definition train_model (env : Environment) : IO unit :=
  print MsgBanner ;;;
  print MsgLoading ;;;
  match load_training_data env with
  | Raise FileNotFoundError => print MsgFileNotFound
  | Raise JSONDecodeError => print MsgInvalidJSON
  | Raise e => io_raise e
  | Ok training_data =>
      print (MsgLoaded (List.length training_data)) ;;;
      print MsgValidating ;;;
      match first_missing_field (enumerate (firstn 5 training_data)) with
      | Some (idx, field) => print (MsgMissingField field idx)
      | None =>
          print MsgStructureValid ;;;
          adverse_events <-- lift (sum_adverse_events 0 training_data) ;;
          let total := List.length training_data in
          let no_events := (inject_Z (Z.of_nat total) - adverse_events)%Q in
          adverse_rate <-- (if (total =? 0)%nat then io_raise ZeroDivisionError
                            else io_ret (adverse_events / inject_Z (Z.of_nat total)
                                         * 100)%Q) ;;
          print (MsgDataSummary total adverse_events no_events adverse_rate) ;;;
          (if Qltb adverse_rate 10 || Qltb 90 adverse_rate
           then print (MsgClassImbalance adverse_rate)
           else print MsgClassBalanceOk) ;;;
          print MsgTraining ;;;
          try_except_Exception (training_steps env training_data) training_failed
      end
  end.

(** The [__main__] block: [asyncio.run(train_model())] under its two
    handlers. *)
Definition main (env : Environment) : IO unit :=
  fun t => match train_model env t with
           | (Ok a, t') => (Ok a, t')
           | (Raise KeyboardInterrupt, t') => print MsgInterrupted t'
           | (Raise e, t') =>
               if is_Exception e
               then (print (MsgUnexpectedError e) ;;; print (MsgTraceback e)) t'
               else (Raise e, t')
           end.

(** Running from an empty trace. *)
Definition run {A} (m : IO A) : result A * list event := m [].

(** Whether the trace shows a call of the predictor's [train_model]. *)
Definition is_train_call (ev : event) : bool :=
  match ev with CallTrainModel _ => true | _ => false end.

(** Concrete inputs: an example with every required field, one without
    its label, and a predictor whose [train_model] raises [e]. *)
Definition complete_example : dict :=
  [("drugs_checked", VOther); ("severity_summary", VOther);
   ("allergy_alerts", VOther); ("patient_age", VInt 30);
   ("has_renal_impairment", VBool false);
   ("has_hepatic_impairment", VBool false);
   ("num_chronic_conditions", VInt 0);
   ("adverse_event_occurred", VInt 1)]%string.

Definition unlabeled_example : dict :=
  [("drugs_checked", VOther); ("severity_summary", VOther);
   ("allergy_alerts", VOther); ("patient_age", VInt 30);
   ("has_renal_impairment", VBool false);
   ("has_hepatic_impairment", VBool false);
   ("num_chronic_conditions", VInt 0)]%string.

(** An example without its age and without its label. *)
Definition ageless_unlabeled_example : dict :=
  [("drugs_checked", VOther); ("severity_summary", VOther);
   ("allergy_alerts", VOther);
   ("has_renal_impairment", VBool false);
   ("has_hepatic_impairment", VBool false);
   ("num_chronic_conditions", VInt 0)]%string.

Definition failing_predictor (e : exn) (training_data : list dict)
  : Environment :=
  {| load_training_data := Ok training_data;
     rp_train_model := fun _ => Raise e;
     rp_feature_importance := [];
     rp_predict_risk := fun _ => Raise (RuntimeError "no model") |}.

End Driver.

(** ** A concrete random source

    A linear congruential generator behind both interfaces, to run the
    generator on.  It satisfies the laws; it is not numpy's Mersenne
    Twister. *)

Module Lcg.

Definition modulus : Z := 2147483648.

Definition next (s : Z) : Z := (s * 1103515245 + 12345) mod modulus.

Definition random (s : Z) : Q * Z :=
  (Qmake (next s) 2147483648, next s).

Definition poisson (lam : Q) (s : Z) : Z * Z :=
  (next s mod 4, next s).

Definition normal (loc scale : Q) (s : Z) : Q * Z :=
  ((loc + scale * Qmake (next s mod 401 - 200) 100)%Q, next s).

Definition rotate {A} (r : nat) (l : list A) : list A := skipn r l ++ firstn r l.

Definition sample (pop : list string) (k : nat) (s : Z) : list string * Z :=
  (firstn k (rotate (Z.to_nat (next s mod Z.of_nat (List.length pop))) pop), next s).

Definition randint (a b : Z) (s : Z) : Z * Z :=
  (a + next s mod (b - a + 1), next s).

Lemma next_range (s : Z) : 0 <= next s < modulus.
Proof. unfold next. apply Z.mod_pos_bound. reflexivity. Qed.

Lemma random_range (s : Z) : (0 <= fst (random s) /\ fst (random s) < 1)%Q.
Proof.
  pose proof (next_range s) as H. unfold modulus in H.
  unfold random, Qle, Qlt; simpl. lia.
Qed.

Lemma poisson_nonneg (lam : Q) (s : Z) : (0 <= lam)%Q -> 0 <= fst (poisson lam s).
Proof. intros _. unfold poisson; simpl. apply Z.mod_pos_bound. reflexivity. Qed.

Lemma rotate_length {A} (r : nat) (l : list A) :
  List.length (rotate r l) = List.length l.
Proof.
  unfold rotate. rewrite length_app, length_skipn, length_firstn. lia.
Qed.

Lemma sample_length (pop : list string) (k : nat) (s : Z) :
  (k <= List.length pop)%nat -> List.length (fst (sample pop k s)) = k.
Proof.
  intros Hk. unfold sample; simpl.
  rewrite length_firstn, rotate_length. lia.
Qed.

Lemma randint_range (a b s : Z) : a <= b -> a <= fst (randint a b s) <= b.
Proof.
  intros Hab. unfold randint; simpl.
  pose proof (Z.mod_pos_bound (next s) (b - a + 1)). lia.
Qed.

#[export] Instance numpy : NumpyRandom := {|
  np_state := Z;
  np_seed := fun seed => seed;
  np_random := random;
  np_poisson := poisson;
  np_normal := normal;
  np_random_range := random_range;
  np_poisson_nonneg := poisson_nonneg
|}.

#[export] Instance python : PyRandom := {|
  py_state := Z;
  py_seed := fun seed => seed;
  py_sample := sample;
  py_randint := randint;
  py_sample_length := sample_length;
  py_randint_range := randint_range
|}.

(** A clock that advances by one second per iteration. *)
Definition ticking (start : datetime) (i : nat) : datetime :=
  start + Z.of_nat i * 1000000.

(** A clock that shows the same first two readings as [ticking 0]. *)
Definition restarted_clock (i : nat) : datetime :=
  if (i <? 2)%nat then ticking 0 i else 0.

End Lcg.

(** ** A scripted random source

    A numpy generator that replays a given list of values of
    [np.random.random()] (an entry outside the half-open unit interval, or a
    draw past the end of the list, reads as 0); its Poisson draws are 0 and
    its normal draws are the mean.  It is used to reach given branches of
    the generator. *)

Module Tape.

Definition random (s : list Q) : Q * list Q :=
  match s with
  | [] => (0%Q, [])
  | u :: s' => (if Qle_bool 0 u && Qltb u 1 then u else 0%Q, s')
  end.

Definition poisson (lam : Q) (s : list Q) : Z * list Q := (0, s).

Definition normal (loc scale : Q) (s : list Q) : Q * list Q := (loc, s).

Lemma replayed_random_range (s : list Q) : (0 <= fst (random s) /\ fst (random s) < 1)%Q.
Proof.
  destruct s as [|u s']; cbn [random fst]; [split; [apply Qle_refl|reflexivity]|].
  destruct (Qle_bool 0 u) eqn:E0; cbn [andb];
    [|split; [apply Qle_refl|reflexivity]].
  destruct (Qltb u 1) eqn:E1; [|split; [apply Qle_refl|reflexivity]].
  split; [apply Qle_bool_iff; exact E0|].
  unfold Qltb in E1. apply negb_true_iff in E1.
  apply Qnot_le_lt. intros H. apply Qle_bool_iff in H. congruence.
Qed.

Lemma zero_poisson_nonneg (lam : Q) (s : list Q) :
  (0 <= lam)%Q -> 0 <= fst (poisson lam s).
Proof. intros _. apply Z.le_refl. Qed.

Definition numpy (tape : list Q) : NumpyRandom := {|
  np_state := list Q;
  np_seed := fun _ => tape;
  np_random := random;
  np_poisson := poisson;
  np_normal := normal;
  np_random_range := replayed_random_range;
  np_poisson_nonneg := zero_poisson_nonneg
|}.

(** The largest value of [np.random.random()]: [1 - 2^-53]. *)
Definition largest_random : Q := 9007199254740991 # 9007199254740992.


(** Five drugs, one contraindicated and no other interaction, a young
    patient of age 30, no impairment, no chronic condition, no allergy. *)
Definition five_drugs_one_contraindicated : list Q :=
  [0.7; 0.9; 0.1; 0.1; 0.5625; 0.5; 0.5; 0.1; 0.1]%Q.

End Tape.

(** ** The specification's formulas, in its own words *)

Module Spec.

Open Scope Q_scope.

(** Clamping to the interval from [lo] to [hi]. *)
Definition clamp (lo hi x : Q) : Q := Qmax lo (Qmin x hi).

(** Step 6: the weighted tier counts, times the escalation factors in the
    stated order, plus the allergy and chronic-condition increments, clamped
    to the interval from 0 to 100. *)
Definition risk_score_formula
    (num_contraindicated num_serious num_significant num_minor : Z)
    (patient_age : Z) (has_renal_impairment has_hepatic_impairment : bool)
    (num_drugs num_allergies num_chronic_conditions : Z) : Q :=
  let weighted :=
    inject_Z (30 * num_contraindicated + 15 * num_serious
              + 7 * num_significant + 2 * num_minor) in
  let age_factor :=
    if (80 <=? patient_age)%Z then 1.4
    else if (65 <=? patient_age)%Z then 1.3 else 1 in
  let renal_factor := if has_renal_impairment then 1.25 else 1 in
  let hepatic_factor := if has_hepatic_impairment then 1.25 else 1 in
  let polypharmacy_factor := if (5 <=? num_drugs)%Z then 1.2 else 1 in
  clamp 0 100
    (weighted * age_factor * renal_factor * hepatic_factor * polypharmacy_factor
     + inject_Z (10 * num_allergies) + inject_Z (3 * num_chronic_conditions)).

(** The formula read off a case record. *)
Definition risk_score_of (e : Example) : Q :=
  risk_score_formula
    (CONTRAINDICATED (severity_summary e)) (SERIOUS (severity_summary e))
    (SIGNIFICANT (severity_summary e)) (MINOR (severity_summary e))
    (patient_age e) (has_renal_impairment e) (has_hepatic_impairment e)
    (Z.of_nat (List.length (drugs_checked e)))
    (Z.of_nat (List.length (allergy_alerts e)))
    (num_chronic_conditions e).

(** Step 7: the label probability for a given noise draw. *)
Definition label_probability (risk_score : Q)
    (num_contraindicated num_serious patient_age : Z)
    (has_renal_impairment has_hepatic_impairment : bool) (noise : Q) : Q :=
  let p := risk_score / 100 in
  let p :=
    if (num_contraindicated >? 0)%Z then Qmin (p * 2.5) 0.95
    else if (num_serious >? 0)%Z then Qmin (p * 1.8) 0.85
    else p in
  let p := if (patient_age >=? 65)%Z then Qmin (p * 1.3) 0.90 else p in
  let p := if orb has_renal_impairment has_hepatic_impairment
           then Qmin (p * 1.2) 0.90 else p in
  clamp 0 1 (p + noise).

Definition label_probability_of (e : Example) (noise : Q) : Q :=
  label_probability (risk_score e)
    (CONTRAINDICATED (severity_summary e)) (SERIOUS (severity_summary e))
    (patient_age e) (has_renal_impairment e) (has_hepatic_impairment e) noise.

(** The feature-vector order of the data model followed by the label and
    the rounded score: the column order the specification gives the
    table. *)
Definition claimed_columns : list string :=
  ["num_drugs"; "num_contraindicated"; "num_serious"; "num_significant";
   "num_minor"; "patient_age"; "is_geriatric"; "has_renal_impairment";
   "has_hepatic_impairment"; "num_chronic_conditions"; "polypharmacy";
   "num_allergies"; "adverse_event"; "risk_score"]%string.

(** The column order of the table as written. *)
Definition written_columns : list string :=
  ["num_drugs"; "num_contraindicated"; "num_serious"; "num_significant";
   "num_minor"; "patient_age"; "is_geriatric"; "has_renal_impairment";
   "has_hepatic_impairment"; "num_chronic_conditions"; "num_allergies";
   "polypharmacy"; "risk_score"; "adverse_event"]%string.

(** The cells of one case under [written_columns]. *)
Definition written_cells (e : Example) : list cell :=
  let num_drugs := Z.of_nat (List.length (drugs_checked e)) in
  [ CInt num_drugs;
    CInt (CONTRAINDICATED (severity_summary e));
    CInt (SERIOUS (severity_summary e));
    CInt (SIGNIFICANT (severity_summary e));
    CInt (MINOR (severity_summary e));
    CInt (patient_age e);
    CInt (if (patient_age e >=? 65)%Z then 1 else 0)%Z;
    CInt (if has_renal_impairment e then 1 else 0)%Z;
    CInt (if has_hepatic_impairment e then 1 else 0)%Z;
    CInt (num_chronic_conditions e);
    CInt (Z.of_nat (List.length (allergy_alerts e)));
    CInt (if (num_drugs >=? 5)%Z then 1 else 0)%Z;
    CFloat (round1 (risk_score e));
    CInt (adverse_event_occurred e) ].

(** A case record with its timestamp blanked. *)
Definition without_generated_at (e : Example) : Example :=
  {| drugs_checked := drugs_checked e;
     severity_summary := severity_summary e;
     allergy_alerts := allergy_alerts e;
     patient_age := patient_age e;
     has_renal_impairment := has_renal_impairment e;
     has_hepatic_impairment := has_hepatic_impairment e;
     num_chronic_conditions := num_chronic_conditions e;
     adverse_event_occurred := adverse_event_occurred e;
     risk_score := risk_score e;
     adverse_event_probability := adverse_event_probability e;
     age_group := age_group e;
     generated_at := 0%Z |}.

Definition result_map {A B} (g : A -> B) (r : result A) : result B :=
  match r with
  | Ok a => Ok (g a)
  | Raise e => Raise e
  end.

(** A copy of the features with another contraindicated count. *)
Definition with_num_contraindicated (f : Features) (k : Z) : Features :=
  {| f_num_drugs := f_num_drugs f;
     f_selected_drugs := f_selected_drugs f;
     f_num_contraindicated := k;
     f_num_serious := f_num_serious f;
     f_num_significant := f_num_significant f;
     f_num_minor := f_num_minor f;
     f_age_group := f_age_group f;
     f_patient_age := f_patient_age f;
     f_has_renal_impairment := f_has_renal_impairment f;
     f_has_hepatic_impairment := f_has_hepatic_impairment f;
     f_num_chronic_conditions := f_num_chronic_conditions f;
     f_num_allergies := f_num_allergies f |}.

(** Scenario A: two drugs, one contraindicated interaction, age 30. *)
Definition scenario_A : Features :=
  {| f_num_drugs := 2;
     f_selected_drugs := ["A"; "B"]%string;
     f_num_contraindicated := 1;
     f_num_serious := 0;
     f_num_significant := 0;
     f_num_minor := 0;
     f_age_group := "young";
     f_patient_age := 30;
     f_has_renal_impairment := false;
     f_has_hepatic_impairment := false;
     f_num_chronic_conditions := 0;
     f_num_allergies := 0 |}.

(** A hand-built case: Scenario A as a record. *)
Definition scenario_A_record : Example :=
  {| drugs_checked := [ {| drug_id := "DRUG_0"; drug_name := "A" |};
                        {| drug_id := "DRUG_1"; drug_name := "B" |} ];
     severity_summary := {| CONTRAINDICATED := 1; SERIOUS := 0;
                            SIGNIFICANT := 0; MINOR := 0 |};
     allergy_alerts := [];
     patient_age := 30;
     has_renal_impairment := false;
     has_hepatic_impairment := false;
     num_chronic_conditions := 0;
     adverse_event_occurred := 1;
     risk_score := 30%Q;
     adverse_event_probability := 0.75%Q;
     age_group := "young";
     generated_at := 0%Z |}.

End Spec.

(** ** [analyze_training_data] and the main block of the generator script *)

Module Analyze.

(** What [analyze_training_data] prints, one constructor per statistic
    line or group of lines. *)
Inductive line : Type :=
| StatsHeader
| OverallTotal (total : nat)
| OverallAdverse (adverse_events : Z) (percent : Q)
| OverallNoEvents (no_events : Z) (percent : Q)
| RiskScoreDistribution (mean median minimum maximum std : Q)
| InteractionSeverity (contraindicated serious significant minor : Z)
| Demographics (average_age : Q) (geriatric : nat) (geriatric_percent : Q)
    (renal : nat) (renal_percent : Q) (hepatic : nat) (hepatic_percent : Q)
| Medication (average_drugs : Q) (polypharmacy : nat) (polypharmacy_percent : Q)
| StatsFooter.

(** Code that prints and may raise; the lines printed so far are kept. *)
Definition Out (A : Type) : Type := list line -> result A * list line.

Definition out_ret {A} (a : A) : Out A := fun t => (Ok a, t).
Definition out_raise {A} (e : exn) : Out A := fun t => (Raise e, t).
Definition out_bind {A B} (m : Out A) (k : A -> Out B) : Out B :=
  fun t => match m t with
           | (Ok a, t') => k a t'
           | (Raise e, t') => (Raise e, t')
           end.
Definition say (l : line) : Out unit := fun t => (Ok tt, t ++ [l]).

Notation "x <~ m ;; k" := (out_bind m (fun x => k))
  (at level 61, m at next level, right associativity).
Notation "m ~~ k" := (out_bind m (fun _ => k))
  (at level 61, right associativity).

(** [a / b * 100] with an integer count [a] and [b = len(...)] *)
Definition percent_of (a : Z) (total : nat) : Out Q :=
  if (total =? 0)%nat then out_raise ZeroDivisionError
  else out_ret (inject_Z a / inject_Z (Z.of_nat total) * 100)%Q.

(** [sum] of a list of integers *)
Definition Zsum (l : list Z) : Z := fold_left Z.add l 0.

(** [np.mean] of a non-empty list *)
Definition mean (l : list Q) : Q :=
  (Qsum l / inject_Z (Z.of_nat (List.length l)))%Q.

(** [min(l)] and [max(l)]: the first smallest and first largest element *)
Definition list_min (x : Q) (rest : list Q) : Q :=
  fold_left (fun m y => if Qltb y m then y else m) rest x.
Definition list_max (x : Q) (rest : list Q) : Q :=
  fold_left (fun m y => if Qltb m y then y else m) rest x.

(** Ascending sort, for [np.median] *)
Fixpoint insert_asc (x : Q) (l : list Q) : list Q :=
  match l with
  | [] => [x]
  | y :: l' => if Qle_bool x y then x :: l else y :: insert_asc x l'
  end.
Definition sort_asc (l : list Q) : list Q := fold_right insert_asc [] l.

(** [np.median] of a non-empty list: the middle element, or the mean of
    the two middle elements. *)
Definition median (l : list Q) : Q :=
  let s := sort_asc l in
  let n := List.length s in
  if Nat.even n
  then ((nth (n / 2 - 1) s 0 + nth (n / 2) s 0) / 2)%Q
  else nth (n / 2) s 0%Q.

(** [sum(1 for ex in training_data if test(ex))] *)
Definition count (test : Example -> bool) (training_data : list Example) : nat :=
  List.length (filter test training_data).

Section WithStd.

(** [np.std], the one statistic that is not rational. *)
Variable np_std : list Q -> Q.

(** Lines 204-260. *)
Definition analyze_training_data (training_data : list Example) : Out unit :=
  say StatsHeader ~~
  let total := List.length training_data in
  let adverse_events := Zsum (map adverse_event_occurred training_data) in
  let no_events := Z.of_nat total - adverse_events in
  say (OverallTotal total) ~~
  p <~ percent_of adverse_events total ;;
  say (OverallAdverse adverse_events p) ~~
  p <~ percent_of no_events total ;;
  say (OverallNoEvents no_events p) ~~
  let risk_scores := map risk_score training_data in
  minimum <~ (match risk_scores with
              | [] => out_raise ValueError
              | x :: rest => out_ret (list_min x rest)
              end) ;;
  maximum <~ (match risk_scores with
              | [] => out_raise ValueError
              | x :: rest => out_ret (list_max x rest)
              end) ;;
  say (RiskScoreDistribution (mean risk_scores) (median risk_scores)
         minimum maximum (np_std risk_scores)) ~~
  let contraindicated :=
    Zsum (map (fun ex => CONTRAINDICATED (severity_summary ex)) training_data) in
  let serious :=
    Zsum (map (fun ex => SERIOUS (severity_summary ex)) training_data) in
  let significant :=
    Zsum (map (fun ex => SIGNIFICANT (severity_summary ex)) training_data) in
  let minor :=
    Zsum (map (fun ex => MINOR (severity_summary ex)) training_data) in
  say (InteractionSeverity contraindicated serious significant minor) ~~
  let ages := map (fun ex => inject_Z (patient_age ex)) training_data in
  let geriatric := count (fun ex => 65 <=? patient_age ex) training_data in
  let renal := count has_renal_impairment training_data in
  let hepatic := count has_hepatic_impairment training_data in
  gp <~ percent_of (Z.of_nat geriatric) total ;;
  rp <~ percent_of (Z.of_nat renal) total ;;
  hp <~ percent_of (Z.of_nat hepatic) total ;;
  say (Demographics (mean ages) geriatric gp renal rp hepatic hp) ~~
  let drug_counts :=
    map (fun ex => List.length (drugs_checked ex)) training_data in
  let polypharmacy :=
    List.length (filter (fun c => 5 <=? c)%nat drug_counts) in
  pp <~ percent_of (Z.of_nat polypharmacy) total ;;
  say (Medication (mean (map (fun c => inject_Z (Z.of_nat c)) drug_counts))
         polypharmacy pp) ~~
  say StatsFooter.

Context {NP : NumpyRandom} {PR : PyRandom}.

(** Lines 303-324, the [__main__] block: generate 2000 examples, analyze
    them, save them.  Its own banner lines are not modelled. *)
Definition main (clock : nat -> datetime) (fs : FileSystem)
  : result FileSystem * list line :=
  match generate_synthetic_training_data clock 2000 with
  | Raise e => (Raise e, [])
  | Ok training_data =>
      match analyze_training_data training_data [] with
      | (Raise e, t) => (Raise e, t)
      | (Ok _, t) =>
          (Ok (save_training_data training_data default_filename fs), t)
      end
  end.

End WithStd.

End Analyze.

(** ** Finer invariants of the feature draws *)

Section GeneratorShape.

Context {NP : NumpyRandom} {PR : PyRandom}.

(** How the draws of one iteration depend on each other. *)
Record feature_shape (f : Features) : Prop := {
  shape_age_group :
    (f_age_group f = "young"%string /\ 18 <= f_patient_age f <= 40)
    \/ (f_age_group f = "middle"%string /\ 40 <= f_patient_age f <= 65)
    \/ (f_age_group f = "elderly"%string /\ 65 <= f_patient_age f <= 95);
  shape_contraindicated :
    (f_num_drugs f < 3 -> f_num_contraindicated f = 0)
    /\ (f_num_drugs f < 5 -> f_num_contraindicated f <= 1);
  shape_serious :
    (f_num_drugs f < 2 -> f_num_serious f = 0)
    /\ (f_num_drugs f < 4 -> f_num_serious f <= 2);
  shape_significant : f_num_drugs f < 2 -> f_num_significant f = 0;
  shape_chronic : f_patient_age f < 65 -> f_num_chronic_conditions f <= 3;
  shape_selected :
    exists s, f_selected_drugs f
              = fst (py_sample common_drugs (Z.to_nat (f_num_drugs f)) s)
}.

End GeneratorShape.

(** The order on feature assignments that the score respects: higher
    counts, an older patient, more drugs, more impairments. *)
Record escalates (f g : Features) : Prop := {
  esc_contraindicated : f_num_contraindicated f <= f_num_contraindicated g;
  esc_serious : f_num_serious f <= f_num_serious g;
  esc_significant : f_num_significant f <= f_num_significant g;
  esc_minor : f_num_minor f <= f_num_minor g;
  esc_allergies : f_num_allergies f <= f_num_allergies g;
  esc_chronic : f_num_chronic_conditions f <= f_num_chronic_conditions g;
  esc_age : f_patient_age f <= f_patient_age g;
  esc_drugs : f_num_drugs f <= f_num_drugs g;
  esc_renal : f_has_renal_impairment f = true -> f_has_renal_impairment g = true;
  esc_hepatic :
    f_has_hepatic_impairment f = true -> f_has_hepatic_impairment g = true
}.

(** The weighted tier counts (lines 110-114). *)
Definition weighted_interactions (f : Features) : Q :=
  inject_Z (f_num_contraindicated f * 30 + f_num_serious f * 15
            + f_num_significant f * 7 + f_num_minor f * 2).

(** The four escalation factors (lines 116-130) and their product. *)
Definition age_factor (f : Features) : Q :=
  if 80 <=? f_patient_age f then 1.4
  else if f_is_geriatric f then 1.3 else 1.
Definition renal_factor (f : Features) : Q :=
  if f_has_renal_impairment f then 1.25 else 1.
Definition hepatic_factor (f : Features) : Q :=
  if f_has_hepatic_impairment f then 1.25 else 1.
Definition polypharmacy_factor (f : Features) : Q :=
  if f_polypharmacy f then 1.2 else 1.
Definition escalation_factor (f : Features) : Q :=
  (age_factor f * renal_factor f * hepatic_factor f * polypharmacy_factor f)%Q.

(** Whether [old] occurs somewhere in [s]. *)
Fixpoint occurs (old s : string) : bool :=
  match s with
  | EmptyString => String.prefix old s
  | String _ s' => String.prefix old s || occurs old s'
  end.

(** Whether an event of the driver is a printed message. *)
Definition is_print (ev : Driver.event) : bool :=
  match ev with Driver.Print _ => true | _ => false end.

(** ** Concrete inputs for the further properties *)

Module Inputs.

Import Driver.

(** Scenario A made worse: age 85 and a renal impairment. *)
Definition scenario_A_escalated : Features :=
  {| f_num_drugs := 2;
     f_selected_drugs := ["A"; "B"]%string;
     f_num_contraindicated := 1;
     f_num_serious := 0;
     f_num_significant := 0;
     f_num_minor := 0;
     f_age_group := "elderly";
     f_patient_age := 85;
     f_has_renal_impairment := true;
     f_has_hepatic_impairment := false;
     f_num_chronic_conditions := 0;
     f_num_allergies := 0 |}.

(** Five complete examples followed by one without its label. *)
Definition late_unlabeled : list dict :=
  [complete_example; complete_example; complete_example; complete_example;
   complete_example; unlabeled_example].

Definition good_metrics : Metrics :=
  {| accuracy := 0.9%Q; precision := 0.8%Q; recall := 0.7%Q;
     roc_auc := 0.85%Q; training_samples := 4; test_samples := 1 |}.

Definition low_risk : PredictionResult :=
  {| pr_risk_score := 12%Q; pr_risk_category := "low";
     pr_probability_adverse_event := 0.12%Q; pr_confidence := 0.76%Q |}.

(** A predictor whose training succeeds and whose prediction is
    [prediction]. *)
Definition trained_predictor (prediction : result PredictionResult)
    (training_data : list dict) : Environment :=
  {| load_training_data := Ok training_data;
     rp_train_model := fun _ => Ok good_metrics;
     rp_feature_importance := [("num_serious", 0.6%Q); ("patient_age", 0.4%Q)]%string;
     rp_predict_risk := fun _ => prediction |}.


End Inputs.

(** * Properties *)

(** ** Reasoning rules of the monad *)

Section WpRules.

Context {S : Type}.

Lemma wp_ret {A} (a : A) (post : A -> S -> Prop) (s : S) :
  post a s -> wp (ret a) post s.
Proof. intros H. exact H. Qed.

Lemma wp_bind {A B} (m : M S A) (k : A -> M S B) (mid : A -> S -> Prop)
    (post : B -> S -> Prop) (s : S) :
  wp m mid s ->
  (forall a s', mid a s' -> wp (k a) post s') ->
  wp (bind m k) post s.
Proof.
  unfold wp, bind. intros Hm Hk.
  destruct (m s) as [[a s']|e]; [|contradiction].
  apply Hk in Hm. exact Hm.
Qed.

Lemma wp_mono {A} (m : M S A) (p q : A -> S -> Prop) (s : S) :
  wp m p s -> (forall a s', p a s' -> q a s') -> wp m q s.
Proof.
  unfold wp. intros Hm Hpq.
  destruct (m s) as [[a s']|e]; [auto|contradiction].
Qed.

Lemma wp_elim {A} (m : M S A) (post : A -> S -> Prop) (s : S) :
  wp m post s -> exists a s', m s = Ok (a, s') /\ post a s'.
Proof.
  unfold wp. intros Hm.
  destruct (m s) as [[a s']|e]; [eauto|contradiction].
Qed.

End WpRules.

(** ** Arithmetic of the library calls *)

Lemma Qltb_true (x y : Q) : Qltb x y = true <-> (x < y)%Q.
Proof.
  unfold Qltb. rewrite negb_true_iff. split.
  - intros H. apply Qnot_le_lt. intros Hle.
    apply Qle_bool_iff in Hle. congruence.
  - intros H. destruct (Qle_bool y x) eqn:E; [|reflexivity].
    apply Qle_bool_iff in E. apply Qlt_not_le in H. contradiction.
Qed.

Lemma int_range_le (a b : Z) (x : Q) :
  0 <= a -> (inject_Z a <= x)%Q -> (x <= inject_Z b)%Q -> a <= int x <= b.
Proof.
  intros Ha Hlo Hhi. unfold int.
  assert (H0 : (0 <= x)%Q).
  { apply Qle_trans with (inject_Z a); [|exact Hlo].
    change 0%Q with (inject_Z 0). rewrite <- Zle_Qle. exact Ha. }
  apply Qle_bool_iff in H0. rewrite H0.
  split.
  - rewrite <- (Qfloor_Z a). apply Qfloor_resp_le. exact Hlo.
  - rewrite <- (Qfloor_Z b). apply Qfloor_resp_le. exact Hhi.
Qed.

(** Rounding to the nearest integer does not cross an integer. *)
Lemma round_half_even_between (n : Z) (y : Q) :
  ((inject_Z n <= y)%Q -> n <= round_half_even y)
  /\ ((y <= inject_Z n)%Q -> round_half_even y <= n).
Proof.
  pose proof (Qfloor_le y) as Hlo. pose proof (Qlt_floor y) as Hhi.
  assert (Hup : round_half_even y = Qfloor y
                \/ (round_half_even y = Qfloor y + 1
                    /\ (inject_Z (Qfloor y) < y)%Q)).
  { unfold round_half_even. cbv zeta.
    destruct (Qltb (y - inject_Z (Qfloor y)) 0.5) eqn:E1; [left; reflexivity|].
    assert (H1 : ~ (y - inject_Z (Qfloor y) < 0.5)%Q)
      by (intros H; apply Qltb_true in H; congruence).
    apply Qnot_lt_le in H1.
    destruct (Qltb 0.5 (y - inject_Z (Qfloor y)));
      [right; split; [reflexivity|lra]|].
    destruct (Z.even (Qfloor y)); [left; reflexivity|].
    right; split; [reflexivity|lra]. }
  split; intros H.
  - assert (Hn : n <= Qfloor y).
    { assert (Hlt : n < Qfloor y + 1); [|lia].
      rewrite Zlt_Qlt. eapply Qle_lt_trans; eassumption. }
    destruct Hup as [-> | [-> _]]; lia.
  - destruct Hup as [-> | [-> Hfrac]].
    + rewrite Zle_Qle. eapply Qle_trans; eassumption.
    + assert (Hlt : Qfloor y < n); [|lia].
      rewrite Zlt_Qlt. eapply Qlt_le_trans; eassumption.
Qed.

Lemma binade_le_52 (b : Z) (x : Q) :
  b < 2 ^ 53 -> (x <= inject_Z b)%Q -> binade x <= 52.
Proof.
  intros Hb Hx. unfold binade.
  destruct (Qle_bool 1 x) eqn:E.
  - apply Qle_bool_iff in E.
    assert (H1 : 1 <= Qfloor x).
    { change 1 with (Qfloor 1). apply Qfloor_resp_le. exact E. }
    assert (H2 : Qfloor x <= b).
    { rewrite <- (Qfloor_Z b). apply Qfloor_resp_le. exact Hx. }
    assert (H3 : Z.log2 (Qfloor x) < 53); [|lia].
    apply Z.log2_lt_pow2; lia.
  - pose proof (Z.log2_up_nonneg (Qceiling (/ x))). lia.
Qed.

Lemma round64_pos_between (a b : Z) (x : Q) :
  b < 2 ^ 53 -> (inject_Z a <= x)%Q -> (x <= inject_Z b)%Q ->
  (inject_Z a <= round64_pos x)%Q /\ (round64_pos x <= inject_Z b)%Q.
Proof.
  intros Hb Hlo Hhi. unfold round64_pos. cbv zeta.
  pose proof (binade_le_52 b x Hb Hhi) as Hk.
  destruct (binade x <=? 52) eqn:E; [|apply Z.leb_gt in E; lia].
  set (s := 2 ^ (52 - binade x)).
  assert (Hs : 0 < s) by (apply Z.pow_pos_nonneg; lia).
  assert (Hsq : (0 < inject_Z s)%Q).
  { change 0%Q with (inject_Z 0). rewrite <- Zlt_Qlt. exact Hs. }
  destruct (round_half_even_between (a * s) (x * inject_Z s)) as [La _].
  destruct (round_half_even_between (b * s) (x * inject_Z s)) as [_ Ub].
  rewrite inject_Z_mult in La, Ub.
  assert (L : a * s <= round_half_even (x * inject_Z s)) by (apply La; nra).
  assert (U : round_half_even (x * inject_Z s) <= b * s) by (apply Ub; nra).
  rewrite Zle_Qle, inject_Z_mult in L, U.
  split.
  - apply Qle_shift_div_l; assumption.
  - apply Qle_shift_div_r; assumption.
Qed.

(** Binary64 rounding does not cross an integer below [2^53]: those are
    binary64 numbers themselves. *)
Lemma round64_between (a b : Z) (x : Q) :
  0 <= a -> b < 2 ^ 53 -> (inject_Z a <= x)%Q -> (x <= inject_Z b)%Q ->
  (inject_Z a <= round64 x)%Q /\ (round64 x <= inject_Z b)%Q.
Proof.
  intros Ha Hb Hlo Hhi. unfold round64.
  assert (H0 : (0 <= inject_Z a)%Q).
  { change 0%Q with (inject_Z 0). rewrite <- Zle_Qle. exact Ha. }
  destruct (Qeq_bool x 0) eqn:E0.
  - apply Qeq_bool_iff in E0. split; lra.
  - destruct (Qltb x 0) eqn:E1; [apply Qltb_true in E1; lra|].
    apply round64_pos_between; assumption.
Qed.


Lemma filter_length_lt {A} (g : A -> bool) (l : list A) (x : A) :
  In x l -> g x = false -> (List.length (filter g l) < List.length l)%nat.
Proof.
  induction l as [|y l IH]; simpl; [contradiction|].
  intros [->|Hin] Hg.
  - rewrite Hg. pose proof (filter_length_le g l). lia.
  - specialize (IH Hin Hg). destruct (g y); simpl; lia.
Qed.

Lemma cumsum_from_total (p : list Q) (acc : Q) :
  p <> [] -> exists c, In c (cumsum_from acc p) /\ (c == fold_left Qplus p acc)%Q.
Proof.
  revert acc. induction p as [|x p IH]; intros acc Hne; [congruence|].
  destruct p as [|y p].
  - exists (acc + x)%Q. simpl. split; [left; reflexivity|reflexivity].
  - destruct (IH (acc + x)%Q) as (c & Hin & Hc); [discriminate|].
    exists c. split; [right; exact Hin|exact Hc].
Qed.

Lemma cumsum_from_length (p : list Q) (acc : Q) :
  List.length (cumsum_from acc p) = List.length p.
Proof.
  revert acc. induction p as [|x p IH]; intros acc; simpl; [reflexivity|].
  rewrite IH. reflexivity.
Qed.

(** A sample below 1 falls inside the table when the probabilities sum to 1. *)
Lemma searchsorted_right_lt (p : list Q) (u : Q) :
  Qeq_bool (Qsum p) 1 = true -> (u < 1)%Q ->
  (searchsorted_right (cumsum p) u < List.length p)%nat.
Proof.
  intros Hsum Hu. apply Qeq_bool_eq in Hsum.
  assert (Hne : p <> []).
  { intros ->. unfold Qsum in Hsum. simpl in Hsum. discriminate Hsum. }
  destruct (cumsum_from_total p 0%Q Hne) as (c & Hin & Hc).
  unfold searchsorted_right, cumsum.
  rewrite <- (cumsum_from_length p 0%Q).
  apply filter_length_lt with (x := c); [exact Hin|].
  destruct (Qle_bool c u) eqn:E; [|reflexivity].
  apply Qle_bool_iff in E. unfold Qsum in Hsum.
  rewrite Hc, Hsum in E. apply Qle_not_lt in E. contradiction.
Qed.

(** ** Rules for the random draws *)

Section DrawRules.

Context {NP : NumpyRandom} {PR : PyRandom}.

Lemma wp_rand (post : Q -> World -> Prop) (w : World) :
  (forall u w', (0 <= u)%Q -> (u < 1)%Q -> post u w') -> wp rand post w.
Proof.
  intros H. unfold wp, rand.
  pose proof (np_random_range (np w)) as [H0 H1].
  destruct (np_random (np w)) as [u s]. apply H; assumption.
Qed.

Lemma wp_poisson (lam : Q) (post : Z -> World -> Prop) (w : World) :
  (0 <= lam)%Q -> (forall k w', 0 <= k -> post k w') -> wp (poisson lam) post w.
Proof.
  intros Hlam H. unfold wp, poisson.
  destruct (Qltb lam 0) eqn:E.
  - apply Qltb_true in E. apply Qlt_not_le in E. contradiction.
  - pose proof (np_poisson_nonneg lam (np w) Hlam) as Hk.
    destruct (np_poisson lam (np w)) as [k s]. apply H. exact Hk.
Qed.

(** A draw between two integers stays between them; it can be the upper
    one, when the sum rounds up to it. *)
Lemma wp_uniform (a b : Z) (post : Q -> World -> Prop) (w : World) :
  0 <= a -> a < b -> b < 2 ^ 53 ->
  (forall x w', (inject_Z a <= x)%Q -> (x <= inject_Z b)%Q -> post x w') ->
  wp (uniform (inject_Z a) (inject_Z b)) post w.
Proof.
  intros Ha Hab Hb H. unfold uniform.
  eapply wp_bind; [apply wp_rand; intros u w' H0 H1; exact (conj H0 H1)|].
  intros u w' [H0 H1]. apply wp_ret.
  assert (Hd : (inject_Z (b - a) == inject_Z b - inject_Z a)%Q).
  { unfold Z.sub. rewrite inject_Z_plus, inject_Z_opp. ring. }
  destruct (round64_between (b - a) (b - a) (inject_Z b - inject_Z a))
    as [Ld Ud]; [lia | lia | lra | lra |].
  assert (Hpos : (0 <= inject_Z (b - a))%Q).
  { change 0%Q with (inject_Z 0). rewrite <- Zle_Qle. lia. }
  destruct (round64_between 0 (b - a)
              (round64 (inject_Z b - inject_Z a) * u))
    as [Lp Up]; [lia | lia | change (inject_Z 0) with 0%Q; nra | nra |].
  change (inject_Z 0) with 0%Q in Lp.
  destruct (round64_between a b
              (inject_Z a
               + round64 (round64 (inject_Z b - inject_Z a) * u)))
    as [Ls Us]; [lia | lia | lra | lra |].
  apply H; assumption.
Qed.

Lemma wp_choice {A} (a : list A) (p : list Q) (post : A -> World -> Prop)
    (w : World) :
  List.length a = List.length p ->
  existsb (fun x => Qltb x 0) p = false ->
  Qeq_bool (Qsum p) 1 = true ->
  (forall v w', In v a -> post v w') ->
  wp (choice a p) post w.
Proof.
  intros Hlen Hneg Hsum H. unfold choice.
  apply Nat.eqb_eq in Hlen. rewrite Hlen, Hneg, Hsum. simpl.
  apply Nat.eqb_eq in Hlen.
  eapply wp_bind; [apply wp_rand; intros u w' H0 H1; exact H1|].
  intros u w' Hu. simpl in Hu.
  pose proof (searchsorted_right_lt p u Hsum Hu) as Hidx.
  rewrite <- Hlen in Hidx. apply nth_error_Some in Hidx.
  destruct (nth_error a (searchsorted_right (cumsum p) u)) as [v|] eqn:E;
    [|congruence].
  apply wp_ret. apply H. eapply nth_error_In; eassumption.
Qed.

Lemma wp_random_sample (population : list string) (k : Z)
    (post : list string -> World -> Prop) (w : World) :
  0 <= k <= Z.of_nat (List.length population) ->
  (forall l w', Z.of_nat (List.length l) = k -> post l w') ->
  wp (random_sample population k) post w.
Proof.
  intros Hk H. unfold wp, random_sample.
  replace ((k <? 0) || (Z.of_nat (List.length population) <? k)) with false
    by (symmetry; apply orb_false_iff; split; apply Z.ltb_ge; lia).
  pose proof (py_sample_length population (Z.to_nat k) (py w)) as Hl.
  destruct (py_sample population (Z.to_nat k) (py w)) as [l s].
  apply H. simpl in Hl. rewrite Hl; lia.
Qed.

Lemma wp_random_randint (a b : Z) (post : Z -> World -> Prop) (w : World) :
  a <= b ->
  (forall r w', a <= r <= b -> post r w') ->
  wp (random_randint a b) post w.
Proof.
  intros Hab H. unfold wp, random_randint.
  replace (b <? a) with false by (symmetry; apply Z.ltb_ge; lia).
  pose proof (py_randint_range a b (py w) Hab) as Hr.
  destruct (py_randint a b (py w)) as [r s]. apply H. exact Hr.
Qed.

End DrawRules.

(** ** One iteration of the generator *)

Section GeneratorFacts.

Context {NP : NumpyRandom} {PR : PyRandom}.

Lemma inject_Z_nonneg (z : Z) : 0 <= z -> (0 <= inject_Z z)%Q.
Proof. intros H. change 0%Q with (inject_Z 0). rewrite <- Zle_Qle. exact H. Qed.

Ltac choose :=
  apply wp_choice;
  [reflexivity | reflexivity | reflexivity
  | let v := fresh "v" in let w := fresh "w" in let H := fresh "H" in
    intros v w H; simpl in H; try lia].

Lemma wp_uniform_int (a b : Z) (w : World) :
  0 <= a -> a < b -> b < 2 ^ 53 ->
  wp (x <- uniform (inject_Z a) (inject_Z b) ;; ret (int x))
     (fun age _ => a <= age <= b) w.
Proof.
  intros Ha Hab Hb.
  apply wp_bind with (mid := fun x _ => (inject_Z a <= x)%Q /\ (x <= inject_Z b)%Q).
  - apply wp_uniform; [assumption ..|]. intros; split; assumption.
  - intros x w' [Hlo Hhi]. apply wp_ret. apply int_range_le; assumption.
Qed.

(** The feature draws never raise, and their results are in range. *)
Lemma draw_features_inv (w : World) :
  wp draw_features (fun f _ => feature_inv f) w.
Proof.
  unfold draw_features.
  apply wp_bind with (mid := fun v _ => 1 <= v <= 10); [choose|].
  intros num_drugs w1 Hnd.
  apply wp_bind with (mid := fun l _ => Z.of_nat (List.length l) = num_drugs).
  { change (Z.of_nat (List.length common_drugs)) with 15.
    apply wp_random_sample; [simpl; lia|]. intros l w' Hl. lia. }
  intros selected_drugs w2 Hsel.
  apply wp_bind with (mid := fun v _ => 0 <= v <= 2).
  { destruct (5 <=? num_drugs); [choose|].
    destruct (3 <=? num_drugs); [choose|]. apply wp_ret. lia. }
  intros num_contraindicated w3 Hnc.
  apply wp_bind with (mid := fun v _ => 0 <= v <= 3).
  { destruct (4 <=? num_drugs); [choose|].
    destruct (2 <=? num_drugs); [choose|]. apply wp_ret. lia. }
  intros num_serious w4 Hns.
  pose proof (inject_Z_nonneg num_drugs ltac:(lia)) as Hq.
  apply wp_bind with (mid := fun v _ => 0 <= v <= num_drugs).
  { destruct (2 <=? num_drugs); [|apply wp_ret; lia].
    apply wp_bind with (mid := fun v _ => 0 <= v).
    - apply wp_poisson; [nra|]. intros; assumption.
    - intros k w' Hk. apply wp_ret. lia. }
  intros num_significant w5 Hnsig.
  apply wp_bind with (mid := fun v _ => 0 <= v).
  { apply wp_poisson; [nra|]. intros; assumption. }
  intros num_minor w6 Hnm. cbv zeta.
  apply wp_bind with (mid := fun _ _ => True); [choose; exact I|].
  intros age_group w7 _.
  apply wp_bind with (mid := fun v _ => 18 <= v <= 95).
  { destruct (age_group =? "young")%string;
      [|destruct (age_group =? "middle")%string].
    - eapply wp_mono; [apply (wp_uniform_int 18 40); lia|].
      cbv beta. intros; lia.
    - eapply wp_mono; [apply (wp_uniform_int 40 65); lia|].
      cbv beta. intros; lia.
    - eapply wp_mono; [apply (wp_uniform_int 65 95); lia|].
      cbv beta. intros; lia. }
  intros patient_age w8 Hage.
  apply wp_bind with (mid := fun rhc _ => 0 <= snd rhc <= 6).
  { destruct (65 <=? patient_age).
    - apply wp_bind with (mid := fun _ _ => True); [apply wp_rand; auto|].
      intros r w' _.
      apply wp_bind with (mid := fun _ _ => True); [apply wp_rand; auto|].
      intros h w'' _.
      apply wp_bind with (mid := fun v _ => 0 <= v <= 6); [choose|].
      intros c w''' Hc. apply wp_ret. exact Hc.
    - apply wp_bind with (mid := fun _ _ => True); [apply wp_rand; auto|].
      intros r w' _.
      apply wp_bind with (mid := fun _ _ => True); [apply wp_rand; auto|].
      intros h w'' _.
      apply wp_bind with (mid := fun v _ => 0 <= v <= 6); [choose|].
      intros c w''' Hc. apply wp_ret. exact Hc. }
  intros [[has_renal has_hepatic] num_chronic] w9 Hch. simpl in Hch.
  apply wp_bind with (mid := fun v _ => 0 <= v <= 3); [choose|].
  intros num_allergies w10 Hna.
  apply wp_ret. constructor; cbn [f_num_drugs f_selected_drugs
    f_num_contraindicated f_num_serious f_num_significant f_num_minor
    f_patient_age f_num_chronic_conditions f_num_allergies]; lia.
Qed.

Lemma wp_remember {A} (m : Gen A) (post : A -> World -> Prop) (w : World) :
  wp m post w -> wp m (fun a w' => m w = Ok (a, w') /\ post a w') w.
Proof.
  unfold wp. destruct (m w) as [[a w']|e]; [auto|contradiction].
Qed.

Lemma wp_normal (loc scale : Q) (post : Q -> World -> Prop) (w : World) :
  (0 <= scale)%Q ->
  (forall w', post (fst (np_normal loc scale (np w))) w') ->
  wp (normal loc scale) post w.
Proof.
  intros Hs H. unfold wp, normal.
  destruct (Qltb scale 0) eqn:E.
  - apply Qltb_true in E. apply Qlt_not_le in E. contradiction.
  - specialize (H {| np := snd (np_normal loc scale (np w)); py := py w |}).
    destruct (np_normal loc scale (np w)) as [x s]. exact H.
Qed.

(** The outcome draws never raise; the probability is the base probability
    plus the normal draw, clamped, and the label is 0 or 1. *)
Lemma draw_outcome_spec (f : Features) (risk_score base_prob : Q) (w : World) :
  wp (draw_outcome f risk_score base_prob)
     (fun r _ =>
        fst r = final_probability base_prob (fst (np_normal 0 0.1 (np w)))
        /\ (snd r = 0 \/ snd r = 1)) w.
Proof.
  unfold draw_outcome.
  apply wp_bind
    with (mid := fun noise _ => noise = fst (np_normal 0 0.1 (np w))).
  { apply wp_normal; [discriminate|]. reflexivity. }
  intros noise w1 ->. cbv zeta.
  apply wp_bind with (mid := fun _ _ => True); [apply wp_rand; auto|].
  intros u w2 _.
  set (label := if Qltb u _ then 1 else 0).
  assert (Hlabel : label = 0 \/ label = 1).
  { subst label. destruct (Qltb u _); auto. }
  clearbody label.
  apply wp_bind with (mid := fun v _ => v = 0 \/ v = 1).
  { destruct (_ && _).
    - apply wp_bind with (mid := fun _ _ => True); [apply wp_rand; auto|].
      intros u' w3 _. apply wp_ret. destruct (Qltb u' 0.92); auto.
    - apply wp_ret. exact Hlabel. }
  intros label' w3 Hlabel'. apply wp_ret. simpl. auto.
Qed.

(** One iteration never raises. *)
Lemma generate_example_spec (now : datetime) (w : World) :
  wp (generate_example now) (fun e _ => produced_by now w e) w.
Proof.
  unfold generate_example.
  eapply wp_bind; [apply wp_remember, draw_features_inv|].
  cbv beta. intros f w1 [Hdraw Hinv]. cbv zeta.
  eapply wp_bind; [apply draw_outcome_spec|].
  cbv beta. intros [final_prob label] w2 [Hp Hl]. simpl in Hp, Hl.
  apply wp_bind with (mid := fun d _ => 0 <= d <= 365).
  { apply wp_random_randint; [lia|]. intros; assumption. }
  intros days w3 Hdays. apply wp_ret.
  exists f, w1, label, days. subst final_prob. auto.
Qed.

Lemma generate_example_Ok (now : datetime) (w w' : World) (e : Example) :
  generate_example now w = Ok (e, w') -> produced_by now w e.
Proof.
  intros H. pose proof (generate_example_spec now w) as Hwp.
  unfold wp in Hwp. rewrite H in Hwp. exact Hwp.
Qed.

(** The loop never raises and appends one record per iteration. *)
Lemma for_each_spec (clock : nat -> datetime) (iterations : list nat) :
  forall (training_data : list Example) (w : World),
    Forall (generated clock) training_data ->
    wp (for_each clock iterations training_data)
       (fun l _ =>
          List.length l = (List.length training_data + List.length iterations)%nat
          /\ Forall (generated clock) l) w.
Proof.
  induction iterations as [|i rest IH]; intros training_data w Hall; simpl.
  - apply wp_ret. split; [lia|exact Hall].
  - eapply wp_bind; [apply wp_remember, generate_example_spec|].
    cbv beta. intros e w' [Hrun _].
    eapply wp_mono.
    + apply IH. apply Forall_app. split; [exact Hall|].
      constructor; [|constructor]. exists i, w, w'. exact Hrun.
    + cbv beta. intros l _ [Hlen Hl]. split; [|exact Hl].
      rewrite Hlen, length_app. simpl. lia.
Qed.

(** The generator returns, with [n_samples] records (none when
    [n_samples] is negative), each built by an iteration. *)
Lemma generate_ok (clock : nat -> datetime) (n_samples : Z) :
  exists training_data,
    generate_synthetic_training_data clock n_samples = Ok training_data
    /\ List.length training_data = Z.to_nat n_samples
    /\ Forall (generated clock) training_data.
Proof.
  pose proof (for_each_spec clock (range n_samples) [] seeded (Forall_nil _))
    as H.
  apply wp_elim in H. destruct H as (l & w' & Hrun & Hlen & Hall).
  exists l. unfold generate_synthetic_training_data. rewrite Hrun.
  split; [reflexivity|]. split; [|exact Hall].
  rewrite Hlen. unfold range. rewrite length_seq. reflexivity.
Qed.

Lemma generated_In (clock : nat -> datetime) (n_samples : Z)
    (training_data : list Example) (e : Example) :
  generate_synthetic_training_data clock n_samples = Ok training_data ->
  In e training_data ->
  exists i w, produced_by (clock i) w e.
Proof.
  intros Hrun Hin.
  destruct (generate_ok clock n_samples) as (l & Hl & _ & Hall).
  rewrite Hrun in Hl. injection Hl as <-.
  rewrite Forall_forall in Hall. destruct (Hall e Hin) as (i & w & w' & He).
  exists i, w. eapply generate_example_Ok; eassumption.
Qed.

Lemma for_each_app (clock : nat -> datetime) (l1 l2 : list nat) :
  forall (acc : list Example) (w : World),
    for_each clock (l1 ++ l2) acc w
    = bind (for_each clock l1 acc) (fun acc' => for_each clock l2 acc') w.
Proof.
  induction l1 as [|i l1 IH]; intros acc w; [reflexivity|].
  cbn [app for_each]. unfold bind.
  destruct (generate_example (clock i) w) as [[e w']|x]; [|reflexivity].
  rewrite IH. reflexivity.
Qed.

(** The loop only appends: one record per iteration, after the ones it
    started with. *)
Lemma for_each_appends (clock : nat -> datetime) (iterations : list nat) :
  forall (acc l : list Example) (w w' : World),
    for_each clock iterations acc w = Ok (l, w') ->
    exists new, l = acc ++ new /\ List.length new = List.length iterations.
Proof.
  induction iterations as [|i rest IH]; intros acc l w w' Hrun.
  - injection Hrun as <- _. exists []. rewrite app_nil_r. auto.
  - cbn [for_each] in Hrun. unfold bind in Hrun.
    destruct (generate_example (clock i) w) as [[e w1]|x]; [|discriminate].
    apply IH in Hrun. destruct Hrun as (new & -> & Hlen).
    exists (e :: new). rewrite <- app_assoc. split; [reflexivity|].
    simpl. rewrite Hlen. reflexivity.
Qed.

(** The record at position [i] of the output is the one iteration [i]
    builds from the random states the earlier iterations left. *)
Lemma nth_generated (clock : nat -> datetime) (n_samples : Z)
    (training_data : list Example) (i : nat) (e : Example) :
  generate_synthetic_training_data clock n_samples = Ok training_data ->
  nth_error training_data i = Some e ->
  exists w w',
    world_before clock i = Ok w
    /\ generate_example (clock i) w = Ok (e, w').
Proof.
  intros Hrun Hnth.
  destruct (generate_ok clock n_samples) as (l & Hl & Hlen & _).
  rewrite Hrun in Hl. injection Hl as <-.
  assert (Hi : (i < Z.to_nat n_samples)%nat).
  { rewrite <- Hlen. apply nth_error_Some. congruence. }
  unfold generate_synthetic_training_data, range in Hrun.
  replace (Z.to_nat n_samples) with (i + S (Z.to_nat n_samples - S i))%nat
    in Hrun by lia.
  rewrite seq_app, for_each_app in Hrun. unfold bind in Hrun.
  unfold world_before.
  destruct (for_each clock (seq 0 i) [] seeded) as [[l1 w]|x] eqn:H1;
    [|discriminate].
  apply for_each_appends in H1. destruct H1 as (new1 & -> & Hlen1).
  rewrite length_seq in Hlen1. cbn [app] in Hrun.
  cbn [seq for_each Nat.add] in Hrun. unfold bind in Hrun.
  destruct (generate_example (clock i) w) as [[e' w1]|x] eqn:H2;
    [|discriminate].
  destruct (for_each clock _ (new1 ++ [e']) w1) as [[l3 w3]|x] eqn:H3;
    [|discriminate].
  apply for_each_appends in H3. destruct H3 as (new3 & -> & _).
  injection Hrun as <-.
  rewrite <- app_assoc in Hnth. rewrite nth_error_app2 in Hnth by lia.
  rewrite Hlen1, Nat.sub_diag in Hnth. cbn in Hnth. injection Hnth as ->.
  exists w, w1. split; [reflexivity|exact H2].
Qed.

End GeneratorFacts.

(** ** Claims about the generated records *)

Lemma enumerate_from_length {A} (l : list A) (j : nat) :
  List.length (enumerate_from j l) = List.length l.
Proof.
  revert j. induction l as [|x l IH]; intros j; simpl; [reflexivity|].
  rewrite IH. reflexivity.
Qed.

Section GeneratorClaims.

Context {NP : NumpyRandom} {PR : PyRandom}.

Lemma make_example_num_drugs f rs fp label now days :
  List.length (drugs_checked (make_example f rs fp label now days))
  = List.length (f_selected_drugs f).
Proof.
  unfold make_example; simpl. rewrite length_map.
  apply enumerate_from_length.
Qed.

Lemma make_example_num_allergies f rs fp label now days :
  List.length (allergy_alerts (make_example f rs fp label now days))
  = Z.to_nat (f_num_allergies f).
Proof.
  unfold make_example; simpl. rewrite length_map.
  unfold range. apply length_seq.
Qed.

(** The ranges of a produced record, on its own fields. *)
Lemma produced_by_ranges (now : datetime) (w : World) (e : Example) :
  produced_by now w e ->
  let num_drugs := Z.of_nat (List.length (drugs_checked e)) in
  1 <= num_drugs <= 10
  /\ 0 <= CONTRAINDICATED (severity_summary e) <= 2
  /\ 0 <= SERIOUS (severity_summary e) <= 3
  /\ 0 <= SIGNIFICANT (severity_summary e) <= num_drugs
  /\ 0 <= MINOR (severity_summary e) <= 2 * num_drugs
  /\ 18 <= patient_age e <= 95
  /\ 0 <= num_chronic_conditions e <= 6
  /\ 0 <= Z.of_nat (List.length (allergy_alerts e)) <= 3.
Proof.
  intros (f & w1 & label & days & _ & Hinv & _ & _ & ->). cbv zeta.
  rewrite make_example_num_drugs, make_example_num_allergies.
  destruct Hinv.
  cbn [make_example severity_summary CONTRAINDICATED SERIOUS SIGNIFICANT
       MINOR patient_age num_chronic_conditions].
  repeat split; lia.
Qed.

(** C3.  For every [n >= 0] the generator returns a list of exactly [n]
    records, and in each of them the four interaction counts are
    non-negative, the significant count is at most the number of drugs and
    the minor count at most twice the number of drugs. *)
Theorem generate_returns_n_valid_records (clock : nat -> datetime) (n : Z) :
  0 <= n ->
  exists training_data,
    generate_synthetic_training_data clock n = Ok training_data
    /\ Z.of_nat (List.length training_data) = n
    /\ Forall (fun e =>
                 let num_drugs := Z.of_nat (List.length (drugs_checked e)) in
                 0 <= CONTRAINDICATED (severity_summary e)
                 /\ 0 <= SERIOUS (severity_summary e)
                 /\ 0 <= SIGNIFICANT (severity_summary e)
                 /\ 0 <= MINOR (severity_summary e)
                 /\ SIGNIFICANT (severity_summary e) <= num_drugs
                 /\ MINOR (severity_summary e) <= 2 * num_drugs)
              training_data.
Proof.
  intros Hn.
  destruct (generate_ok clock n) as (training_data & Hrun & Hlen & _).
  exists training_data. split; [exact Hrun|]. split; [lia|].
  apply Forall_forall. intros e Hin.
  destruct (generated_In clock n training_data e Hrun Hin) as (i & w & Hp).
  apply produced_by_ranges in Hp. cbv zeta in *. lia.
Qed.


(** C10.  Every record the generator returns has at most 2 contraindicated
    and at most 3 serious interactions, and its list of allergy alerts has
    at most 3 entries. *)
Theorem generated_count_upper_bounds (clock : nat -> datetime) (n : Z)
    (training_data : list Example) (e : Example) :
  generate_synthetic_training_data clock n = Ok training_data ->
  In e training_data ->
  CONTRAINDICATED (severity_summary e) <= 2
  /\ SERIOUS (severity_summary e) <= 3
  /\ (List.length (allergy_alerts e) <= 3)%nat.
Proof.
  intros Hrun Hin.
  destruct (generated_In clock n training_data e Hrun Hin) as (i & w & Hp).
  apply produced_by_ranges in Hp. cbv zeta in *. lia.
Qed.

Ltac push_inject_Z :=
  repeat (rewrite inject_Z_plus || rewrite inject_Z_mult);
  change (inject_Z 30) with 30%Q; change (inject_Z 15) with 15%Q;
  change (inject_Z 7) with 7%Q; change (inject_Z 2) with 2%Q;
  change (inject_Z 10) with 10%Q; change (inject_Z 3) with 3%Q;
  change (inject_Z 1) with 1%Q.

(** On non-negative counts the score of the code is the formula of the
    specification: the lower clamp at 0 never acts. *)
Lemma rule_based_matches_formula (f : Features) :
  0 <= f_num_contraindicated f -> 0 <= f_num_serious f ->
  0 <= f_num_significant f -> 0 <= f_num_minor f ->
  0 <= f_num_allergies f -> 0 <= f_num_chronic_conditions f ->
  (rule_based_risk_score f ==
   Spec.risk_score_formula
     (f_num_contraindicated f) (f_num_serious f) (f_num_significant f)
     (f_num_minor f) (f_patient_age f) (f_has_renal_impairment f)
     (f_has_hepatic_impairment f) (f_num_drugs f) (f_num_allergies f)
     (f_num_chronic_conditions f))%Q.
Proof.
  intros H1 H2 H3 H4 H5 H6.
  apply inject_Z_nonneg in H1, H2, H3, H4, H5, H6.
  unfold rule_based_risk_score, Spec.risk_score_formula, Spec.clamp,
    pre_clamp_risk_score, f_is_geriatric, f_polypharmacy.
  cbv zeta. push_inject_Z.
  destruct (80 <=? f_patient_age f), (65 <=? f_patient_age f),
    (f_has_renal_impairment f), (f_has_hepatic_impairment f),
    (5 <=? f_num_drugs f);
    (rewrite Q.max_r;
     [apply Q.min_compat; [ring|reflexivity]
     |apply Q.min_glb; lra]).
Qed.

(** One contraindicated interaction and nothing that escalates or adds to
    it gives 30. *)
Lemma one_contraindicated_scores_30 (f : Features) :
  f_num_contraindicated f = 1 -> f_num_serious f = 0 ->
  f_num_significant f = 0 -> f_num_minor f = 0 ->
  f_patient_age f = 30 ->
  f_has_renal_impairment f = false ->
  f_has_hepatic_impairment f = false ->
  f_num_drugs f < 5 ->
  f_num_allergies f = 0 -> f_num_chronic_conditions f = 0 ->
  (rule_based_risk_score f == 30)%Q.
Proof.
  intros Hnc Hns Hnsig Hnm Hage Hr Hh Hnd Hna Hch.
  unfold rule_based_risk_score, pre_clamp_risk_score, f_is_geriatric,
    f_polypharmacy.
  rewrite Hnc, Hns, Hnsig, Hnm, Hage, Hr, Hh, Hna, Hch.
  apply Z.leb_gt in Hnd. rewrite Hnd. reflexivity.
Qed.

(** C1, as amended.  The risk score of every generated record is the stated
    formula (weighted tier counts, the escalation factors in order, the two
    increments, clamped to the interval from 0 to 100); Scenario A, and any
    case (generated or not) with one contraindicated interaction and no
    other interaction, fewer than five drugs, age 30, no impairment, no
    allergy and no chronic condition, scores exactly 30; the score never
    exceeds 100 and is exactly 100 whenever the value before the cap exceeds
    100, as with 10 contraindicated interactions. *)
Theorem risk_score_is_stated_formula :
  (forall (clock : nat -> datetime) (n : Z) (training_data : list Example)
          (e : Example),
      generate_synthetic_training_data clock n = Ok training_data ->
      In e training_data ->
      (risk_score e == Spec.risk_score_of e)%Q)
  /\ (rule_based_risk_score Spec.scenario_A == 30)%Q
  /\ (forall f : Features,
         f_num_contraindicated f = 1 -> f_num_serious f = 0 ->
         f_num_significant f = 0 -> f_num_minor f = 0 ->
         f_patient_age f = 30 ->
         f_has_renal_impairment f = false ->
         f_has_hepatic_impairment f = false ->
         f_num_drugs f < 5 ->
         f_num_allergies f = 0 -> f_num_chronic_conditions f = 0 ->
         (rule_based_risk_score f == 30)%Q)
  /\ (forall (clock : nat -> datetime) (n : Z) (training_data : list Example)
             (e : Example),
         generate_synthetic_training_data clock n = Ok training_data ->
         In e training_data ->
         CONTRAINDICATED (severity_summary e) = 1 ->
         SERIOUS (severity_summary e) = 0 ->
         SIGNIFICANT (severity_summary e) = 0 ->
         MINOR (severity_summary e) = 0 ->
         (List.length (drugs_checked e) < 5)%nat ->
         patient_age e = 30 ->
         has_renal_impairment e = false ->
         has_hepatic_impairment e = false ->
         allergy_alerts e = [] ->
         num_chronic_conditions e = 0 ->
         (risk_score e == 30)%Q)
  /\ (forall f : Features, (rule_based_risk_score f <= 100)%Q)
  /\ (forall f : Features,
         (100 < pre_clamp_risk_score f)%Q ->
         (rule_based_risk_score f == 100)%Q)
  /\ (100 < pre_clamp_risk_score
              (Spec.with_num_contraindicated Spec.scenario_A 10))%Q
  /\ (rule_based_risk_score
        (Spec.with_num_contraindicated Spec.scenario_A 10) == 100)%Q.
Proof.
  split; [|split; [|split; [|split; [|split; [|split; [|split]]]]]].
  - intros clock n training_data e Hrun Hin.
    destruct (generated_In clock n training_data e Hrun Hin) as (i & w & Hp).
    destruct Hp as (f & w1 & label & days & _ & Hinv & _ & _ & ->).
    unfold Spec.risk_score_of.
    rewrite make_example_num_drugs, make_example_num_allergies.
    destruct Hinv.
    cbn [make_example risk_score severity_summary CONTRAINDICATED SERIOUS
         SIGNIFICANT MINOR patient_age num_chronic_conditions
         has_renal_impairment has_hepatic_impairment].
    rewrite inv_selected_drugs0, Z2Nat.id by lia.
    apply rule_based_matches_formula; lia.
  - reflexivity.
  - exact one_contraindicated_scores_30.
  - intros clock n training_data e Hrun Hin Hnc Hns Hnsig Hnm Hnd Hage Hr Hh
           Hna Hch.
    destruct (generated_In clock n training_data e Hrun Hin) as (i & w & Hp).
    destruct Hp as (f & w1 & label & days & _ & Hinv & _ & _ & ->).
    rewrite make_example_num_drugs in Hnd.
    apply (f_equal (@List.length string)) in Hna.
    rewrite make_example_num_allergies in Hna.
    destruct Hinv.
    cbn [make_example risk_score severity_summary CONTRAINDICATED SERIOUS
         SIGNIFICANT MINOR patient_age num_chronic_conditions
         has_renal_impairment has_hepatic_impairment List.length] in *.
    apply one_contraindicated_scores_30; try assumption; lia.
  - intros f. apply Q.le_min_r.
  - intros f H. apply Q.min_r. apply Qlt_le_weak. exact H.
  - reflexivity.
  - reflexivity.
Qed.

(** C5.  With every other input fixed, one more contraindicated
    interaction never lowers the score before the cap. *)
Theorem pre_clamp_monotone_in_contraindicated (f : Features) :
  (pre_clamp_risk_score f <=
   pre_clamp_risk_score
     (Spec.with_num_contraindicated f (f_num_contraindicated f + 1)))%Q.
Proof.
  unfold pre_clamp_risk_score, f_is_geriatric, f_polypharmacy,
    Spec.with_num_contraindicated.
  cbn [f_num_drugs f_num_contraindicated f_num_serious f_num_significant
       f_num_minor f_patient_age f_has_renal_impairment
       f_has_hepatic_impairment f_num_chronic_conditions f_num_allergies].
  cbv zeta. push_inject_Z.
  destruct (80 <=? f_patient_age f), (65 <=? f_patient_age f),
    (f_has_renal_impairment f), (f_has_hepatic_impairment f),
    (5 <=? f_num_drugs f); lra.
Qed.

(** The label probability of the code is the stated one, for any noise. *)
Lemma final_probability_matches (f : Features) (rs noise : Q) :
  (final_probability (base_probability f rs) noise ==
   Spec.label_probability rs (f_num_contraindicated f) (f_num_serious f)
     (f_patient_age f) (f_has_renal_impairment f)
     (f_has_hepatic_impairment f) noise)%Q.
Proof.
  unfold final_probability, base_probability, Spec.label_probability,
    Spec.clamp, f_is_geriatric.
  cbv zeta. rewrite !Z.gtb_ltb, Z.geb_leb.
  apply Q.max_compat; [unfold Qeq; reflexivity|].
  rewrite Q.min_comm.
  apply Q.min_compat; [reflexivity|unfold Qeq; reflexivity].
Qed.

(** C4.  The label probability of every generated record is: the risk
    score over 100; times 2.5 capped at 0.95 when a contraindicated
    interaction exists, otherwise times 1.8 capped at 0.85 when a serious
    one exists; times 1.3 capped at 0.90 from age 65; times 1.2 capped at
    0.90 under renal or hepatic impairment; plus one normal(0, 0.1) draw,
    the one iteration [i] makes right after its feature draws; clamped to
    the interval from 0 to 1. *)
Theorem label_probability_is_stated_formula (clock : nat -> datetime) (n : Z)
    (training_data : list Example) (i : nat) (e : Example) :
  generate_synthetic_training_data clock n = Ok training_data ->
  nth_error training_data i = Some e ->
  exists (w w' : World) (f : Features) (w1 : World),
    world_before clock i = Ok w
    /\ generate_example (clock i) w = Ok (e, w')
    /\ draw_features w = Ok (f, w1)
    /\ (adverse_event_probability e ==
        Spec.label_probability_of e (fst (np_normal 0 0.1 (np w1))))%Q.
Proof.
  intros Hrun Hnth.
  destruct (nth_generated clock n training_data i e Hrun Hnth)
    as (w & w' & Hbefore & Hstep).
  pose proof (generate_example_Ok (clock i) w w' e Hstep) as Hp.
  destruct Hp as (f & w1 & label & days & Hdraw & _ & _ & _ & He).
  exists w, w', f, w1.
  split; [exact Hbefore|]. split; [exact Hstep|]. split; [exact Hdraw|].
  rewrite He. unfold Spec.label_probability_of.
  cbn [make_example risk_score adverse_event_probability severity_summary
       CONTRAINDICATED SERIOUS patient_age has_renal_impairment
       has_hepatic_impairment].
  apply final_probability_matches.
Qed.

(** *** Determinism *)

(** The clock reading of an iteration reaches its record only through
    [generated_at]; the random states do not depend on it. *)
Lemma generate_example_timestamp (now1 now2 : datetime) (w : World) :
  Spec.result_map (fun p => (Spec.without_generated_at (fst p), snd p))
    (generate_example now1 w)
  = Spec.result_map (fun p => (Spec.without_generated_at (fst p), snd p))
      (generate_example now2 w).
Proof.
  unfold generate_example, bind.
  destruct (draw_features w) as [[f w1]|x]; [|reflexivity].
  destruct (draw_outcome _ _ _ w1) as [[[final_prob label] w2]|x];
    [|reflexivity].
  destruct (random_randint 0 365 w2) as [[days w3]|x]; reflexivity.
Qed.

Lemma for_each_timestamp (clock1 clock2 : nat -> datetime)
    (iterations : list nat) :
  forall (acc1 acc2 : list Example) (w : World),
    map Spec.without_generated_at acc1 = map Spec.without_generated_at acc2 ->
    Spec.result_map (fun p => (map Spec.without_generated_at (fst p), snd p))
      (for_each clock1 iterations acc1 w)
    = Spec.result_map (fun p => (map Spec.without_generated_at (fst p), snd p))
        (for_each clock2 iterations acc2 w).
Proof.
  induction iterations as [|i rest IH]; intros acc1 acc2 w Hacc; simpl.
  - unfold ret; simpl. rewrite Hacc. reflexivity.
  - pose proof (generate_example_timestamp (clock1 i) (clock2 i) w) as Hstep.
    unfold bind.
    destruct (generate_example (clock1 i) w) as [[e1 w1]|x1],
             (generate_example (clock2 i) w) as [[e2 w2]|x2];
      cbn [Spec.result_map fst snd] in Hstep; try discriminate Hstep.
    + assert (He : Spec.without_generated_at e1 = Spec.without_generated_at e2)
        by congruence.
      assert (Hw : w1 = w2) by congruence.
      subst w2. apply IH.
      rewrite !map_app. cbn [map]. rewrite Hacc, He. reflexivity.
    + cbn [Spec.result_map]. congruence.
Qed.

Lemma for_each_same_readings (clock1 clock2 : nat -> datetime)
    (iterations : list nat) :
  (forall i, In i iterations -> clock1 i = clock2 i) ->
  forall (acc : list Example) (w : World),
    for_each clock1 iterations acc w = for_each clock2 iterations acc w.
Proof.
  induction iterations as [|i rest IH]; intros Hclock acc w; simpl;
    [reflexivity|].
  rewrite (Hclock i (or_introl eq_refl)). unfold bind.
  destruct (generate_example (clock2 i) w) as [[e w']|x]; [|reflexivity].
  apply IH. intros j Hj. apply Hclock. right. exact Hj.
Qed.

(** C2, as amended.  Two runs with the same [n] agree on every field of
    every record except [generated_at], whatever the wall clock shows; they
    agree on [generated_at] too, hence on the whole output, when
    [datetime.now()] returns the same readings in both. *)
Theorem generator_deterministic_up_to_clock :
  (forall (clock1 clock2 : nat -> datetime) (n : Z),
      Spec.result_map (map Spec.without_generated_at)
        (generate_synthetic_training_data clock1 n)
      = Spec.result_map (map Spec.without_generated_at)
          (generate_synthetic_training_data clock2 n))
  /\ (forall (clock1 clock2 : nat -> datetime) (n : Z),
         (forall i, (i < Z.to_nat n)%nat -> clock1 i = clock2 i) ->
         generate_synthetic_training_data clock1 n
         = generate_synthetic_training_data clock2 n).
Proof.
  split.
  - intros clock1 clock2 n. unfold generate_synthetic_training_data.
    pose proof (for_each_timestamp clock1 clock2 (range n) [] [] seeded
                  eq_refl) as H.
    destruct (for_each clock1 (range n) [] seeded) as [[l1 w1]|x1],
             (for_each clock2 (range n) [] seeded) as [[l2 w2]|x2];
      cbn [Spec.result_map fst snd] in H; try discriminate H;
      cbn [Spec.result_map].
    + assert (Hl : map Spec.without_generated_at l1
                   = map Spec.without_generated_at l2) by congruence.
      rewrite Hl. reflexivity.
    + congruence.
  - intros clock1 clock2 n Hclock. unfold generate_synthetic_training_data.
    rewrite (for_each_same_readings clock1 clock2 (range n)); [reflexivity|].
    intros i Hi. apply Hclock. unfold range in Hi.
    apply in_seq in Hi. lia.
Qed.

End GeneratorClaims.

(** *** Runs on the concrete random source *)

(** C2, as the specification states it, fails: the same seed and the same
    [n] give different output when the second call starts one second
    later. *)
Lemma same_seed_runs_differ :
  @generate_synthetic_training_data Lcg.numpy Lcg.python (Lcg.ticking 0) 1
  <> @generate_synthetic_training_data Lcg.numpy Lcg.python
       (Lcg.ticking 1000000) 1.
Proof. vm_compute. intros H. discriminate H. Qed.

(** C1, as the specification states it, fails: the generator can return a
    case with one contraindicated interaction, age 30, no impairment, no
    allergy and no chronic condition that has five drugs, and its score is
    36, not 30. *)
Lemma five_drug_case_scores_36 :
  exists e,
    @generate_synthetic_training_data
      (Tape.numpy Tape.five_drugs_one_contraindicated) Lcg.python
      (Lcg.ticking 0) 1 = Ok [e]
    /\ CONTRAINDICATED (severity_summary e) = 1
    /\ patient_age e = 30
    /\ has_renal_impairment e = false
    /\ has_hepatic_impairment e = false
    /\ allergy_alerts e = []
    /\ num_chronic_conditions e = 0
    /\ List.length (drugs_checked e) = 5%nat
    /\ (risk_score e == 36)%Q
    /\ ~ (risk_score e == 30)%Q.
Proof.
  eexists. split; [vm_compute; reflexivity|].
  cbn [severity_summary CONTRAINDICATED patient_age has_renal_impairment
       has_hepatic_impairment allergy_alerts num_chronic_conditions
       drugs_checked risk_score List.length].
  repeat (split; [reflexivity|]).
  intros H. discriminate H.
Qed.


(** The brackets overlap: with the largest uniform sample a patient of the
    young group has age 40. *)
Lemma young_patient_of_40_generated :
  exists e,
    @generate_synthetic_training_data
      (Tape.numpy [0.1; 0.1; 0.1; Tape.largest_random]%Q) Lcg.python
      (Lcg.ticking 0) 1 = Ok [e]
    /\ age_group e = "young"%string
    /\ patient_age e = 40.
Proof.
  eexists. split; [vm_compute; reflexivity|].
  cbn [age_group patient_age]. split; reflexivity.
Qed.

(** Three records from the concrete source. *)
Lemma generate_returns_n_valid_records_witness :
  0 <= 3
  /\ exists training_data,
       @generate_synthetic_training_data Lcg.numpy Lcg.python (Lcg.ticking 0) 3
       = Ok training_data
       /\ Z.of_nat (List.length training_data) = 3.
Proof.
  split; [lia|].
  destruct (@generate_returns_n_valid_records Lcg.numpy Lcg.python
              (Lcg.ticking 0) 3 ltac:(lia)) as (training_data & Hrun & Hlen & _).
  exists training_data. split; [exact Hrun|exact Hlen].
Defined.


(** The count bounds on the second record of a concrete run. *)
Lemma generated_count_upper_bounds_witness :
  exists training_data e,
    @generate_synthetic_training_data Lcg.numpy Lcg.python (Lcg.ticking 0) 2
    = Ok training_data
    /\ In e training_data
    /\ CONTRAINDICATED (severity_summary e) <= 2
    /\ SERIOUS (severity_summary e) <= 3
    /\ (List.length (allergy_alerts e) <= 3)%nat.
Proof.
  eexists. eexists.
  split; [vm_compute; reflexivity|]. split; [right; left; reflexivity|].
  eapply (@generated_count_upper_bounds Lcg.numpy Lcg.python (Lcg.ticking 0) 2);
    [vm_compute; reflexivity|right; left; reflexivity].
Defined.

(** The formula on the first record of a concrete run, and the cap on
    Scenario A with four contraindicated interactions (120 before the cap). *)
Lemma risk_score_is_stated_formula_witness :
  (exists training_data e,
      @generate_synthetic_training_data Lcg.numpy Lcg.python (Lcg.ticking 0) 2
      = Ok training_data
      /\ In e training_data
      /\ (risk_score e == Spec.risk_score_of e)%Q)
  /\ (100 < pre_clamp_risk_score
              (Spec.with_num_contraindicated Spec.scenario_A 4))%Q
  /\ (rule_based_risk_score
        (Spec.with_num_contraindicated Spec.scenario_A 4) == 100)%Q.
Proof.
  pose proof (@risk_score_is_stated_formula Lcg.numpy Lcg.python)
    as (Hformula & _ & _ & _ & _ & Hcap & _).
  split.
  - eexists. eexists.
    split; [vm_compute; reflexivity|]. split; [left; reflexivity|].
    eapply (Hformula (Lcg.ticking 0) 2);
      [vm_compute; reflexivity|left; reflexivity].
  - split; [reflexivity|]. apply Hcap. reflexivity.
Defined.

(** The label probability of the second record of a concrete run. *)
Lemma label_probability_is_stated_formula_witness :
  exists training_data e,
    @generate_synthetic_training_data Lcg.numpy Lcg.python (Lcg.ticking 0) 2
    = Ok training_data
    /\ nth_error training_data 1 = Some e
    /\ exists (w w' : @World Lcg.numpy Lcg.python) (f : Features)
              (w1 : @World Lcg.numpy Lcg.python),
         world_before (Lcg.ticking 0) 1 = Ok w
         /\ generate_example (Lcg.ticking 0 1) w = Ok (e, w')
         /\ draw_features w = Ok (f, w1)
         /\ (adverse_event_probability e ==
             Spec.label_probability_of e (fst (np_normal 0 0.1 (np w1))))%Q.
Proof.
  eexists. eexists.
  split; [vm_compute; reflexivity|]. split; [reflexivity|].
  eapply (@label_probability_is_stated_formula Lcg.numpy Lcg.python
            (Lcg.ticking 0) 2);
    [vm_compute; reflexivity|reflexivity].
Defined.

(** Two clocks with the same first two readings give the same two records. *)
Lemma generator_deterministic_up_to_clock_witness :
  (forall i, (i < Z.to_nat 2)%nat -> Lcg.ticking 0 i = Lcg.restarted_clock i)
  /\ @generate_synthetic_training_data Lcg.numpy Lcg.python (Lcg.ticking 0) 2
     = @generate_synthetic_training_data Lcg.numpy Lcg.python Lcg.restarted_clock 2.
Proof.
  assert (H : forall i, (i < Z.to_nat 2)%nat -> Lcg.ticking 0 i = Lcg.restarted_clock i).
  { intros i Hi. destruct i as [|[|i]]; [reflexivity|reflexivity|].
    simpl in Hi. lia. }
  split; [exact H|].
  apply (proj2 (@generator_deterministic_up_to_clock Lcg.numpy Lcg.python)
           (Lcg.ticking 0) Lcg.restarted_clock 2 H).
Defined.

(** ** The table written by [save_training_data] *)

Lemma csv_row_keys (e : Example) : map fst (csv_row e) = Spec.written_columns.
Proof. reflexivity. Qed.

Lemma csv_row_cells (e : Example) :
  map (fun c => lookup c (csv_row e)) Spec.written_columns
  = map Some (Spec.written_cells e).
Proof.
  unfold Spec.written_cells. cbv zeta. rewrite !Z.geb_leb. reflexivity.
Qed.

(** Rows that all carry the written columns add no column to them. *)
Lemma columns_stable (rows : list (list (string * cell))) :
  Forall (fun row => map fst row = Spec.written_columns) rows ->
  fold_left (fun cols row => fold_left add_key (map fst row) cols)
            rows Spec.written_columns
  = Spec.written_columns.
Proof.
  induction rows as [|row rows IH]; intros Hrows; [reflexivity|].
  inversion Hrows as [|? ? Hrow Hrest]; subst. cbn [fold_left].
  rewrite Hrow.
  change (fold_left add_key Spec.written_columns Spec.written_columns)
    with Spec.written_columns.
  apply IH. exact Hrest.
Qed.

Lemma make_DataFrame_columns (training_data : list Example) :
  columns (make_DataFrame (map csv_row training_data))
  = match training_data with
    | [] => []
    | _ :: _ => Spec.written_columns
    end.
Proof.
  destruct training_data as [|e rest]; [reflexivity|].
  unfold make_DataFrame; cbn [columns map fold_left].
  rewrite csv_row_keys.
  change (fold_left add_key Spec.written_columns [])
    with Spec.written_columns.
  apply columns_stable. apply Forall_forall. intros row Hin.
  apply in_map_iff in Hin. destruct Hin as (e' & <- & _). apply csv_row_keys.
Qed.

Lemma make_DataFrame_values (training_data : list Example) :
  values (make_DataFrame (map csv_row training_data))
  = map (fun e => map Some (Spec.written_cells e)) training_data.
Proof.
  pose proof (make_DataFrame_columns training_data) as Hcols.
  unfold make_DataFrame in *; cbn [columns values] in *.
  rewrite Hcols, map_map.
  destruct training_data as [|e rest]; [reflexivity|].
  apply map_ext. intros e'. apply csv_row_cells.
Qed.

(** C7, as amended.  Next to the JSON document, [save_training_data] writes a
    table with one row per case; for a non-empty list its columns are, in
    this order, num_drugs, num_contraindicated, num_serious, num_significant,
    num_minor, patient_age, is_geriatric, has_renal_impairment,
    has_hepatic_impairment, num_chronic_conditions, num_allergies,
    polypharmacy, risk_score, adverse_event; num_drugs and num_allergies are
    the lengths of [drugs_checked] and [allergy_alerts], is_geriatric is
    [patient_age >= 65], polypharmacy is [num_drugs >= 5] and risk_score is
    rounded to one decimal. *)
Theorem save_training_data_writes_table (training_data : list Example)
    (fs : FileSystem) :
  let fs' := save_training_data training_data default_filename fs in
  read_file "training_data.json" fs' = Some (JsonDocument training_data)
  /\ exists df,
       read_file "training_data.csv" fs' = Some (CsvTable df)
       /\ columns df = match training_data with
                       | [] => []
                       | _ :: _ => Spec.written_columns
                       end
       /\ values df = map (fun e => map Some (Spec.written_cells e)) training_data
       /\ List.length (values df) = List.length training_data.
Proof.
  cbv zeta. unfold save_training_data.
  change (replace ".json" ".csv" default_filename) with "training_data.csv"%string.
  split; [reflexivity|].
  exists (make_DataFrame (map csv_row training_data)).
  split; [reflexivity|]. split; [apply make_DataFrame_columns|].
  rewrite make_DataFrame_values. split; [reflexivity|apply length_map].
Qed.

(** C7, as the specification states it, fails: the table of a one-case list
    has num_allergies before polypharmacy and risk_score before the label,
    not the feature-vector order followed by the label and the score. *)
Lemma table_columns_not_in_feature_order :
  exists df,
    read_file "training_data.csv"
      (save_training_data [Spec.scenario_A_record] default_filename [])
    = Some (CsvTable df)
    /\ columns df = Spec.written_columns
    /\ columns df <> Spec.claimed_columns.
Proof.
  eexists. split; [vm_compute; reflexivity|].
  split; [reflexivity|]. cbn [columns]. discriminate.
Qed.

(** ** The training driver *)

Module DriverFacts.

Import Driver.

(** [find] returns the first element that passes the test. *)
Lemma find_first {A} (p : A -> bool) (l : list A) (x : A) :
  find p l = Some x ->
  exists earlier later,
    l = earlier ++ x :: later
    /\ p x = true
    /\ forall y, In y earlier -> p y = false.
Proof.
  induction l as [|a l IH]; intros Hfind; [discriminate Hfind|].
  cbn [find] in Hfind. destruct (p a) eqn:Ha.
  - injection Hfind as <-. exists [], l.
    split; [reflexivity|]. split; [exact Ha|]. intros y [].
  - destruct (IH Hfind) as (earlier & later & -> & Hx & Hearlier).
    exists (a :: earlier), later.
    split; [reflexivity|]. split; [exact Hx|].
    intros y [<- | Hy]; [exact Ha|apply Hearlier; exact Hy].
Qed.

(** The validation loop reports a missing field whenever one of the
    examples it looks at lacks one.  What it reports is the first example
    that lacks a required field, and the first of the required fields, in
    their listed order, that this example lacks. *)
Lemma first_missing_field_complete (examples : list dict) :
  forall (j idx : nat) (example : dict) (field : string),
    nth_error examples idx = Some example ->
    In field required_fields ->
    has_key field example = false ->
    exists idx' field' example',
      first_missing_field (enumerate_from j examples)
      = Some ((j + idx')%nat, field')
      /\ (idx' <= idx)%nat
      /\ nth_error examples idx' = Some example'
      /\ has_key field' example' = false
      /\ (forall k ex fld,
             (k < idx')%nat -> nth_error examples k = Some ex ->
             In fld required_fields -> has_key fld ex = true)
      /\ exists earlier later,
           required_fields = earlier ++ field' :: later
           /\ forall fld, In fld earlier -> has_key fld example' = true.
Proof.
  induction examples as [|ex rest IH]; intros j idx example field Hnth Hin Hkey.
  - destruct idx; discriminate Hnth.
  - cbn [enumerate_from first_missing_field].
    destruct (find (fun fld => negb (has_key fld ex)) required_fields)
      as [fld|] eqn:Hfind.
    + apply find_first in Hfind.
      destruct Hfind as (earlier & later & Hsplit & Hneg & Hearlier).
      apply negb_true_iff in Hneg.
      exists 0%nat, fld, ex. rewrite Nat.add_0_r.
      split; [reflexivity|]. split; [lia|]. split; [reflexivity|].
      split; [exact Hneg|]. split; [intros k ? ? Hk; lia|].
      exists earlier, later. split; [exact Hsplit|].
      intros f Hf. apply Hearlier in Hf. apply negb_false_iff in Hf. exact Hf.
    + pose proof (find_none _ _ Hfind) as Hno. cbv beta in Hno.
      destruct idx as [|idx].
      * injection Hnth as ->.
        specialize (Hno field Hin). rewrite Hkey in Hno. discriminate Hno.
      * destruct (IH (S j) idx example field Hnth Hin Hkey)
          as (idx' & fld & ex' & Hfirst & Hle & Hnth' & Hneg & Hbefore & Horder).
        exists (S idx'), fld, ex'. rewrite Hfirst.
        split; [f_equal; f_equal; lia|]. split; [lia|].
        split; [exact Hnth'|]. split; [exact Hneg|]. split; [|exact Horder].
        intros k ex0 f Hk Hnthk Hf. destruct k as [|k].
        -- injection Hnthk as <-. apply negb_false_iff. apply Hno. exact Hf.
        -- apply (Hbefore k ex0 f); [lia|exact Hnthk|exact Hf].
Qed.

(** C6, as amended.  When the training data is a list of JSON objects and
    one of the first five lacks a required field, the driver prints which
    field of which example is missing and returns normally: no exception
    reaches the caller, and the predictor's [train_model] is never called,
    so no model is trained or persisted.  The example it names is the first
    one that lacks a required field (every example before it has all
    eight), and the field it names is the first of the required fields, in
    their listed order, that this example lacks. *)
Theorem missing_field_aborts_training (env : Environment)
    (training_data : list dict) (idx : nat) (example : dict) (field : string) :
  load_training_data env = Ok training_data ->
  (idx < 5)%nat ->
  nth_error training_data idx = Some example ->
  In field required_fields ->
  has_key field example = false ->
  exists idx' field' example',
    run (train_model env)
    = (Ok tt,
       [Print MsgBanner; Print MsgLoading;
        Print (MsgLoaded (List.length training_data)); Print MsgValidating;
        Print (MsgMissingField field' idx')])
    /\ existsb is_train_call (snd (run (train_model env))) = false
    /\ (idx' <= idx)%nat
    /\ nth_error training_data idx' = Some example'
    /\ In field' required_fields
    /\ has_key field' example' = false
    /\ (forall k ex fld,
           (k < idx')%nat -> nth_error training_data k = Some ex ->
           In fld required_fields -> has_key fld ex = true)
    /\ exists earlier later,
         required_fields = earlier ++ field' :: later
         /\ forall fld, In fld earlier -> has_key fld example' = true.
Proof.
  intros Hload Hidx Hnth Hin Hkey.
  assert (Hfirstn : forall k, (k < 5)%nat ->
            nth_error (firstn 5 training_data) k = nth_error training_data k).
  { intros k Hk. rewrite nth_error_firstn.
    apply Nat.ltb_lt in Hk. rewrite Hk. reflexivity. }
  assert (Hnth5 : nth_error (firstn 5 training_data) idx = Some example)
    by (rewrite Hfirstn; assumption).
  destruct (first_missing_field_complete (firstn 5 training_data)
              0 idx example field Hnth5 Hin Hkey)
    as (idx' & field' & example' & Hfirst & Hle & Hnth' & Hneg & Hbefore
        & earlier & later & Hsplit & Hearlier).
  assert (Hrun : run (train_model env)
                 = (Ok tt,
                    [Print MsgBanner; Print MsgLoading;
                     Print (MsgLoaded (List.length training_data));
                     Print MsgValidating;
                     Print (MsgMissingField field' idx')])).
  { unfold run, train_model. rewrite Hload.
    unfold enumerate. rewrite Hfirst. reflexivity. }
  exists idx', field', example'. rewrite Hrun.
  split; [reflexivity|]. split; [reflexivity|]. split; [exact Hle|].
  split; [rewrite <- Hfirstn by lia; exact Hnth'|].
  split; [rewrite Hsplit; apply in_elt|].
  split; [exact Hneg|]. split.
  - intros k ex fld Hk Hnthk Hfld.
    apply (Hbefore k ex fld); [exact Hk| |exact Hfld].
    rewrite Hfirstn by lia. exact Hnthk.
  - exists earlier, later. split; [exact Hsplit|exact Hearlier].
Qed.

(** What the [try] statement does when the predictor's [train_model] raises
    [e]: the handler runs for an instance of [Exception]; anything else
    leaves the statement as it came. *)
Lemma training_failure_handled (env : Environment) (training_data : list dict)
    (e : exn) (t : list event) :
  rp_train_model env training_data = Raise e ->
  try_except_Exception (training_steps env training_data) training_failed t
  = if is_Exception e
    then (Ok tt,
          t ++ [CallTrainModel training_data; Print (MsgErrorDuringTraining e);
                Print MsgTroubleshooting; Print (MsgTraceback e)])
    else (Raise e, t ++ [CallTrainModel training_data]).
Proof.
  intros Hraise.
  unfold try_except_Exception, training_steps, io_bind, emit, lift.
  rewrite Hraise. destruct (is_Exception e); [|reflexivity].
  unfold training_failed, io_bind, print, emit.
  rewrite <- !app_assoc. reflexivity.
Qed.

(** C8, as amended.  Whenever the driver reaches the training call and the
    call raises an exception, then: if the exception is an instance of
    [Exception], the driver catches it, prints the error, the
    troubleshooting checklist and the traceback, and returns normally;
    otherwise ([KeyboardInterrupt], [SystemExit], [CancelledError]) the
    exception propagates to the caller of [train_model]. *)
Theorem training_exception_is_reported (env : Environment)
    (training_data : list dict) (adverse_events : Q) (e : exn) :
  load_training_data env = Ok training_data ->
  first_missing_field (enumerate (firstn 5 training_data)) = None ->
  sum_adverse_events 0 training_data = Ok adverse_events ->
  training_data <> [] ->
  rp_train_model env training_data = Raise e ->
  exists before,
    run (train_model env)
    = if is_Exception e
      then (Ok tt,
            before ++ [CallTrainModel training_data;
                       Print (MsgErrorDuringTraining e);
                       Print MsgTroubleshooting; Print (MsgTraceback e)])
      else (Raise e, before ++ [CallTrainModel training_data]).
Proof.
  intros Hload Hvalid Hsum Hne Hraise.
  unfold run, train_model. rewrite Hload, Hvalid.
  unfold io_bind at 1 2 3 4 5. cbn [print emit app].
  unfold lift at 1. rewrite Hsum.
  destruct training_data as [|ex rest]; [congruence|].
  cbn [List.length Nat.eqb]. unfold io_bind at 1 2. cbn [io_ret print emit app].
  unfold io_bind at 1. cbn [print emit].
  unfold io_bind at 1.
  destruct (_ || _); cbn [print emit]; unfold io_bind at 1; cbn [print emit];
    eexists; apply training_failure_handled; assumption.
Qed.

(** A complete example, then one without its age and its label, then one
    without its label: asked about the label of the third, the driver names
    an example no later than it. *)
Lemma missing_field_aborts_training_witness :
  exists idx' field' example',
    run (train_model
           (failing_predictor ValueError
              [complete_example; ageless_unlabeled_example;
               unlabeled_example]))
    = (Ok tt,
       [Print MsgBanner; Print MsgLoading; Print (MsgLoaded 3);
        Print MsgValidating; Print (MsgMissingField field' idx')])
    /\ existsb is_train_call
         (snd (run (train_model
                      (failing_predictor ValueError
                         [complete_example; ageless_unlabeled_example;
                          unlabeled_example]))))
       = false
    /\ (idx' <= 2)%nat
    /\ nth_error [complete_example; ageless_unlabeled_example;
                  unlabeled_example] idx' = Some example'
    /\ In field' required_fields
    /\ has_key field' example' = false
    /\ (forall k ex fld,
           (k < idx')%nat ->
           nth_error [complete_example; ageless_unlabeled_example;
                      unlabeled_example] k = Some ex ->
           In fld required_fields -> has_key fld ex = true)
    /\ exists earlier later,
         required_fields = earlier ++ field' :: later
         /\ forall fld, In fld earlier -> has_key fld example' = true.
Proof.
  apply (missing_field_aborts_training
           (failing_predictor ValueError
              [complete_example; ageless_unlabeled_example;
               unlabeled_example])
           [complete_example; ageless_unlabeled_example; unlabeled_example]
           2 unlabeled_example "adverse_event_occurred").
  - reflexivity.
  - lia.
  - reflexivity.
  - simpl. tauto.
  - reflexivity.
Defined.

(** On that input the driver names the age of the second example: the first
    incomplete example and, of its two missing fields, the one listed
    first. *)
Lemma first_missing_field_of_first_incomplete_example :
  run (train_model
         (failing_predictor ValueError
            [complete_example; ageless_unlabeled_example; unlabeled_example]))
  = (Ok tt,
     [Print MsgBanner; Print MsgLoading; Print (MsgLoaded 3);
      Print MsgValidating; Print (MsgMissingField "patient_age" 1)]).
Proof. reflexivity. Qed.

(** C6, as the specification states it, fails: with the label missing from
    the first example the driver raises nothing; it returns normally after
    printing the missing field. *)
Lemma missing_field_raises_nothing :
  has_key "adverse_event_occurred" unlabeled_example = false
  /\ run (train_model (failing_predictor ValueError [unlabeled_example]))
     = (Ok tt,
        [Print MsgBanner; Print MsgLoading; Print (MsgLoaded 1);
         Print MsgValidating;
         Print (MsgMissingField "adverse_event_occurred" 0)])
  /\ ~ (exists e,
           fst (run (train_model
                       (failing_predictor ValueError [unlabeled_example])))
           = Raise e).
Proof.
  split; [reflexivity|]. split; [reflexivity|].
  intros [e He]. vm_compute in He. discriminate He.
Qed.

(** A [ValueError] raised by the predictor's [train_model]. *)
Lemma training_exception_is_reported_witness :
  exists before,
    run (train_model (failing_predictor ValueError [complete_example]))
    = (Ok tt,
       before ++ [CallTrainModel [complete_example];
                  Print (MsgErrorDuringTraining ValueError);
                  Print MsgTroubleshooting; Print (MsgTraceback ValueError)]).
Proof.
  eapply (training_exception_is_reported
            (failing_predictor ValueError [complete_example])
            [complete_example] _ ValueError).
  - reflexivity.
  - reflexivity.
  - reflexivity.
  - discriminate.
  - reflexivity.
Defined.

(** C8, as the specification states it, fails: a [KeyboardInterrupt] raised
    by the predictor's [train_model] is not caught by the driver's
    [train_model]; it propagates to the caller and no checklist is
    printed. *)
Lemma keyboard_interrupt_propagates :
  rp_train_model (failing_predictor KeyboardInterrupt [complete_example])
    [complete_example] = Raise KeyboardInterrupt
  /\ fst (run (train_model
                 (failing_predictor KeyboardInterrupt [complete_example])))
     = Raise KeyboardInterrupt
  /\ ~ In (Print MsgTroubleshooting)
          (snd (run (train_model
                       (failing_predictor KeyboardInterrupt
                          [complete_example])))).
Proof.
  split; [reflexivity|]. split; [reflexivity|].
  vm_compute. intuition discriminate.
Qed.

End DriverFacts.

(** * Further properties of the two scripts *)

(** ** More about the generated records *)

Section GeneratorShapeFacts.

Context {NP : NumpyRandom} {PR : PyRandom}.

Ltac pick :=
  apply wp_choice;
  [reflexivity | reflexivity | reflexivity
  | let v := fresh "v" in let w := fresh "w" in let H := fresh "H" in
    intros v w H; simpl in H; try lia].

Lemma wp_random_sample_exact (population : list string) (k : Z)
    (post : list string -> World -> Prop) (w : World) :
  0 <= k <= Z.of_nat (List.length population) ->
  (forall w', post (fst (py_sample population (Z.to_nat k) (py w))) w') ->
  wp (random_sample population k) post w.
Proof.
  intros Hk H. unfold wp, random_sample.
  replace ((k <? 0) || (Z.of_nat (List.length population) <? k)) with false
    by (symmetry; apply orb_false_iff; split; apply Z.ltb_ge; lia).
  specialize (H {| np := np w;
                   py := snd (py_sample population (Z.to_nat k) (py w)) |}).
  destruct (py_sample population (Z.to_nat k) (py w)) as [l s]. exact H.
Qed.

(** The feature draws depend on each other as [feature_shape] says. *)
Lemma draw_features_shape (w : World) :
  wp draw_features (fun f _ => feature_shape f) w.
Proof.
  unfold draw_features.
  apply wp_bind with (mid := fun v _ => 1 <= v <= 10); [pick|].
  intros num_drugs w1 Hnd.
  apply wp_bind
    with (mid := fun l _ =>
                   exists s, l = fst (py_sample common_drugs
                                        (Z.to_nat num_drugs) s)).
  { change (Z.of_nat (List.length common_drugs)) with 15.
    rewrite Z.min_l by lia.
    apply wp_random_sample_exact; [simpl; lia|]. intros w'. eauto. }
  intros selected_drugs w2 Hsel.
  apply wp_bind
    with (mid := fun v _ => (num_drugs < 3 -> v = 0) /\ (num_drugs < 5 -> v <= 1)).
  { destruct (5 <=? num_drugs) eqn:E5;
      [apply Z.leb_le in E5; pick|apply Z.leb_gt in E5].
    destruct (3 <=? num_drugs) eqn:E3;
      [apply Z.leb_le in E3; pick|apply Z.leb_gt in E3].
    apply wp_ret. lia. }
  intros num_contraindicated w3 Hnc.
  apply wp_bind
    with (mid := fun v _ => (num_drugs < 2 -> v = 0) /\ (num_drugs < 4 -> v <= 2)).
  { destruct (4 <=? num_drugs) eqn:E4;
      [apply Z.leb_le in E4; pick|apply Z.leb_gt in E4].
    destruct (2 <=? num_drugs) eqn:E2;
      [apply Z.leb_le in E2; pick|apply Z.leb_gt in E2].
    apply wp_ret. lia. }
  intros num_serious w4 Hns.
  pose proof (inject_Z_nonneg num_drugs ltac:(lia)) as Hq.
  apply wp_bind with (mid := fun v _ => num_drugs < 2 -> v = 0).
  { destruct (2 <=? num_drugs) eqn:E2;
      [apply Z.leb_le in E2|apply wp_ret; lia].
    apply wp_bind with (mid := fun _ _ => True).
    - apply wp_poisson; [nra|]. intros; exact I.
    - intros k w' _. apply wp_ret. lia. }
  intros num_significant w5 Hnsig.
  apply wp_bind with (mid := fun _ _ => True).
  { apply wp_poisson; [nra|]. intros; exact I. }
  intros num_minor w6 _. cbv zeta.
  apply wp_bind
    with (mid := fun v _ => In v ["young"; "middle"; "elderly"]%string).
  { pick. exact H. }
  intros age_group w7 Hgroup.
  apply wp_bind
    with (mid := fun a _ =>
                   (age_group = "young"%string /\ 18 <= a <= 40)
                   \/ (age_group = "middle"%string /\ 40 <= a <= 65)
                   \/ (age_group = "elderly"%string /\ 65 <= a <= 95)).
  { destruct Hgroup as [<-|[<-|[<-|[]]]]; cbn [String.eqb Ascii.eqb Bool.eqb].
    - eapply wp_mono; [apply (wp_uniform_int 18 40); lia|].
      cbv beta. intros a _ Ha. left. split; [reflexivity|exact Ha].
    - eapply wp_mono; [apply (wp_uniform_int 40 65); lia|].
      cbv beta. intros a _ Ha. right. left. split; [reflexivity|exact Ha].
    - eapply wp_mono; [apply (wp_uniform_int 65 95); lia|].
      cbv beta. intros a _ Ha. right. right. split; [reflexivity|exact Ha]. }
  intros patient_age w8 Hage.
  apply wp_bind with (mid := fun rhc _ => patient_age < 65 -> snd rhc <= 3).
  { destruct (65 <=? patient_age) eqn:E65;
      [apply Z.leb_le in E65|apply Z.leb_gt in E65].
    - apply wp_bind with (mid := fun _ _ => True); [apply wp_rand; auto|].
      intros r w' _.
      apply wp_bind with (mid := fun _ _ => True); [apply wp_rand; auto|].
      intros h w'' _.
      apply wp_bind with (mid := fun _ _ => True); [pick; exact I|].
      intros c w''' _. apply wp_ret. cbn [snd]. lia.
    - apply wp_bind with (mid := fun _ _ => True); [apply wp_rand; auto|].
      intros r w' _.
      apply wp_bind with (mid := fun _ _ => True); [apply wp_rand; auto|].
      intros h w'' _.
      apply wp_bind with (mid := fun v _ => v <= 3); [pick|].
      intros c w''' Hc. apply wp_ret. cbn [snd]. intros _. exact Hc. }
  intros [[has_renal has_hepatic] num_chronic] w9 Hch. cbn [snd] in Hch.
  apply wp_bind with (mid := fun _ _ => True); [pick; exact I|].
  intros num_allergies w10 _.
  apply wp_ret. constructor;
    cbn [f_num_drugs f_selected_drugs f_num_contraindicated f_num_serious
         f_num_significant f_num_minor f_age_group f_patient_age
         f_num_chronic_conditions f_num_allergies]; assumption.
Qed.

(** The clamp of line 161 works for any base probability and noise. *)
Lemma final_probability_range (base_prob noise : Q) :
  (0 <= final_probability base_prob noise
   /\ final_probability base_prob noise <= 1)%Q.
Proof.
  unfold final_probability. split.
  - apply Qle_trans with 0.0%Q; [discriminate|apply Q.le_max_l].
  - apply Q.max_lub; [discriminate|].
    apply Qle_trans with 1.0%Q; [apply Q.le_min_l|discriminate].
Qed.

(** A record built by an iteration, with the features it was built from. *)
Lemma generate_example_built (now : datetime) (w w' : World) (e : Example) :
  generate_example now w = Ok (e, w') ->
  exists f final_prob label days,
    feature_inv f /\ feature_shape f
    /\ (0 <= final_prob /\ final_prob <= 1)%Q
    /\ (label = 0 \/ label = 1) /\ 0 <= days <= 365
    /\ e = make_example f (rule_based_risk_score f) final_prob label now days.
Proof.
  intros Hrun.
  destruct (generate_example_Ok now w w' e Hrun)
    as (f & w1 & label & days & Hdraw & Hinv & Hlabel & Hdays & He).
  pose proof (draw_features_shape w) as Hshape.
  unfold wp in Hshape. rewrite Hdraw in Hshape.
  eexists f, _, label, days.
  split; [exact Hinv|]. split; [exact Hshape|].
  split; [|split; [exact Hlabel|split; [exact Hdays|exact He]]].
  apply final_probability_range.
Qed.

End GeneratorShapeFacts.

Lemma enumerate_from_snd {A} (l : list A) (j : nat) :
  map snd (enumerate_from j l) = l.
Proof.
  revert j. induction l as [|x l IH]; intros j; simpl; [reflexivity|].
  rewrite IH. reflexivity.
Qed.

Lemma enumerate_from_fst {A} (l : list A) (j : nat) :
  map fst (enumerate_from j l) = seq j (List.length l).
Proof.
  revert j. induction l as [|x l IH]; intros j; simpl; [reflexivity|].
  rewrite IH. reflexivity.
Qed.

Lemma common_drugs_NoDup : NoDup common_drugs.
Proof.
  unfold common_drugs.
  repeat (constructor; [simpl; intuition discriminate|]). constructor.
Qed.

Section GeneratorExtras.

Context {NP : NumpyRandom} {PR : PyRandom}.

Ltac to_Q :=
  repeat (rewrite inject_Z_plus || rewrite inject_Z_mult);
  change (inject_Z 30) with 30%Q; change (inject_Z 15) with 15%Q;
  change (inject_Z 7) with 7%Q; change (inject_Z 2) with 2%Q;
  change (inject_Z 10) with 10%Q; change (inject_Z 3) with 3%Q.

(** Every record of the output was built by its iteration from features
    that satisfy both invariants. *)
Lemma generated_built (clock : nat -> datetime) (n : Z)
    (training_data : list Example) (i : nat) (e : Example) :
  generate_synthetic_training_data clock n = Ok training_data ->
  nth_error training_data i = Some e ->
  exists f final_prob label days,
    feature_inv f /\ feature_shape f
    /\ (0 <= final_prob /\ final_prob <= 1)%Q
    /\ (label = 0 \/ label = 1) /\ 0 <= days <= 365
    /\ e = make_example f (rule_based_risk_score f) final_prob label
             (clock i) days.
Proof.
  intros Hrun Hnth.
  destruct (nth_generated clock n training_data i e Hrun Hnth)
    as (w & w' & _ & Hstep).
  eapply generate_example_built. exact Hstep.
Qed.

Lemma rule_based_nonneg (f : Features) :
  feature_inv f -> (0 <= rule_based_risk_score f)%Q.
Proof.
  intros [_ _ [H1 _] [H2 _] [H3 _] [H4 _] _ [H6 _] [H5 _]].
  apply inject_Z_nonneg in H1, H2, H3, H4, H5, H6.
  unfold rule_based_risk_score. apply Q.min_glb; [|discriminate].
  unfold pre_clamp_risk_score, f_is_geriatric, f_polypharmacy.
  cbv zeta. to_Q.
  destruct (80 <=? f_patient_age f), (65 <=? f_patient_age f),
    (f_has_renal_impairment f), (f_has_hepatic_impairment f),
    (5 <=? f_num_drugs f); lra.
Qed.

(** X1.  The stored score, probability and label of every generated record are
    in range: the score between 0 and 100, the probability between 0 and 1,
    the label 0 or 1. *)
Theorem generated_outcome_ranges (clock : nat -> datetime) (n : Z)
    (training_data : list Example) (e : Example) :
  generate_synthetic_training_data clock n = Ok training_data ->
  In e training_data ->
  (0 <= risk_score e /\ risk_score e <= 100)%Q
  /\ (0 <= adverse_event_probability e /\ adverse_event_probability e <= 1)%Q
  /\ (adverse_event_occurred e = 0 \/ adverse_event_occurred e = 1).
Proof.
  intros Hrun Hin. apply In_nth_error in Hin. destruct Hin as [i Hnth].
  destruct (generated_built clock n training_data i e Hrun Hnth)
    as (f & fp & label & days & Hinv & _ & Hfp & Hlabel & _ & ->).
  cbn [make_example risk_score adverse_event_probability
       adverse_event_occurred].
  split; [|split; [exact Hfp|exact Hlabel]].
  split; [apply rule_based_nonneg; exact Hinv|apply Q.le_min_r].
Qed.

(** X2.  The age group stored in a generated record names the bracket its age
    was drawn from, both ends included: young for 18 to 40, middle for 40 to
    65, elderly for 65 to 95.  (The upper end of a bracket is reached only
    when the binary64 sum of the uniform draw rounds up to it, so the
    brackets overlap at 40 and at 65.) *)
Theorem age_group_matches_age (clock : nat -> datetime) (n : Z)
    (training_data : list Example) (e : Example) :
  generate_synthetic_training_data clock n = Ok training_data ->
  In e training_data ->
  (age_group e = "young"%string /\ 18 <= patient_age e <= 40)
  \/ (age_group e = "middle"%string /\ 40 <= patient_age e <= 65)
  \/ (age_group e = "elderly"%string /\ 65 <= patient_age e <= 95).
Proof.
  intros Hrun Hin. apply In_nth_error in Hin. destruct Hin as [i Hnth].
  destruct (generated_built clock n training_data i e Hrun Hnth)
    as (f & fp & label & days & _ & Hshape & _ & _ & _ & ->).
  cbn [make_example age_group patient_age].
  destruct (shape_age_group f Hshape) as [[-> H]|[[-> H]|[-> H]]];
    [left|right; left|right; right]; split; try reflexivity; lia.
Qed.

(** X3.  The interaction counts of a generated record depend on its number of
    drugs: nothing contraindicated below three drugs and at most one below
    five; nothing serious or significant for a single drug and at most two
    serious below four drugs.  A patient under 65 has at most three chronic
    conditions. *)
Theorem counts_follow_drug_count (clock : nat -> datetime) (n : Z)
    (training_data : list Example) (e : Example) :
  generate_synthetic_training_data clock n = Ok training_data ->
  In e training_data ->
  let num_drugs := Z.of_nat (List.length (drugs_checked e)) in
  (num_drugs < 3 -> CONTRAINDICATED (severity_summary e) = 0)
  /\ (num_drugs < 5 -> CONTRAINDICATED (severity_summary e) <= 1)
  /\ (num_drugs < 2 -> SERIOUS (severity_summary e) = 0
                       /\ SIGNIFICANT (severity_summary e) = 0)
  /\ (num_drugs < 4 -> SERIOUS (severity_summary e) <= 2)
  /\ (patient_age e < 65 -> num_chronic_conditions e <= 3).
Proof.
  intros Hrun Hin. apply In_nth_error in Hin. destruct Hin as [i Hnth].
  destruct (generated_built clock n training_data i e Hrun Hnth)
    as (f & fp & label & days & Hinv & Hshape & _ & _ & _ & ->).
  cbv zeta. rewrite make_example_num_drugs.
  rewrite (inv_selected_drugs f Hinv).
  cbn [make_example severity_summary CONTRAINDICATED SERIOUS SIGNIFICANT
       patient_age num_chronic_conditions].
  destruct Hshape as [_ [Hc1 Hc2] [Hs1 Hs2] Hsig Hch _].
  repeat split; auto.
Qed.

(** X4.  The timestamp of the record at position [i] lies in the 365 days that
    end at the clock reading of iteration [i]. *)
Theorem generated_at_within_a_year (clock : nat -> datetime) (n : Z)
    (training_data : list Example) (i : nat) (e : Example) :
  generate_synthetic_training_data clock n = Ok training_data ->
  nth_error training_data i = Some e ->
  clock i - timedelta_days 365 <= generated_at e <= clock i.
Proof.
  intros Hrun Hnth.
  destruct (generated_built clock n training_data i e Hrun Hnth)
    as (f & fp & label & days & _ & _ & _ & _ & Hdays & ->).
  cbn [make_example generated_at]. unfold timedelta_days. lia.
Qed.

(** X5.  Asking for more examples keeps the earlier ones: under clocks that
    agree on the first [n] readings, the output for [n] is the first [n]
    records of the output for any [m >= n]. *)
Theorem longer_run_extends_shorter (clock1 clock2 : nat -> datetime)
    (n m : Z) (short long : list Example) :
  0 <= n <= m ->
  (forall i, (i < Z.to_nat n)%nat -> clock1 i = clock2 i) ->
  generate_synthetic_training_data clock1 n = Ok short ->
  generate_synthetic_training_data clock2 m = Ok long ->
  firstn (Z.to_nat n) long = short.
Proof.
  intros Hnm Hclock Hshort Hlong.
  assert (Hsame : generate_synthetic_training_data clock2 n = Ok short).
  { rewrite <- Hshort. unfold generate_synthetic_training_data.
    rewrite (for_each_same_readings clock1 clock2 (range n)); [reflexivity|].
    intros i Hi. apply Hclock. unfold range in Hi. apply in_seq in Hi. lia. }
  clear Hshort Hclock.
  unfold generate_synthetic_training_data, range in *.
  replace (Z.to_nat m) with (Z.to_nat n + (Z.to_nat m - Z.to_nat n))%nat
    in Hlong by lia.
  rewrite seq_app, for_each_app in Hlong. unfold bind in Hlong.
  destruct (for_each clock2 (seq 0 (Z.to_nat n)) [] seeded)
    as [[l1 w1]|x] eqn:H1; [|discriminate].
  injection Hsame as <-.
  pose proof (for_each_appends _ _ _ _ _ _ H1) as (new1 & E1 & Hlen1).
  cbn [app] in E1. subst new1. rewrite length_seq in Hlen1.
  destruct (for_each clock2 _ l1 w1) as [[l2 w2]|x] eqn:H2; [|discriminate].
  injection Hlong as <-.
  apply for_each_appends in H2. destruct H2 as (new2 & -> & _).
  rewrite firstn_app, <- Hlen1, firstn_all, Nat.sub_diag.
  cbn [firstn]. apply app_nil_r.
Qed.

End GeneratorExtras.

(** ** More about the score and the probability *)

Lemma Qmult_le_both (a b c d : Q) :
  (0 <= a)%Q -> (a <= b)%Q -> (0 <= c)%Q -> (c <= d)%Q -> (a * c <= b * d)%Q.
Proof.
  intros Ha Hab Hc Hcd.
  apply Qle_trans with (b * c)%Q.
  - apply Qmult_le_compat_r; assumption.
  - rewrite (Qmult_comm b c), (Qmult_comm b d).
    apply Qmult_le_compat_r; [assumption|].
    apply Qle_trans with a; assumption.
Qed.

(** The score before the cap is the weighted interaction count times the
    product of the escalation factors, plus 10 per allergy and 3 per chronic
    condition. *)
Lemma pre_clamp_decomposition (f : Features) :
  (pre_clamp_risk_score f ==
   weighted_interactions f * escalation_factor f
   + inject_Z (f_num_allergies f * 10)
   + inject_Z (f_num_chronic_conditions f * 3))%Q.
Proof.
  unfold pre_clamp_risk_score, weighted_interactions, escalation_factor,
    age_factor, renal_factor, hepatic_factor, polypharmacy_factor.
  cbv zeta. rewrite !inject_Z_plus.
  destruct (80 <=? f_patient_age f), (f_is_geriatric f),
    (f_has_renal_impairment f), (f_has_hepatic_impairment f),
    (f_polypharmacy f); ring.
Qed.

Lemma age_factor_mono (f g : Features) :
  f_patient_age f <= f_patient_age g ->
  (1 <= age_factor f /\ age_factor f <= age_factor g)%Q.
Proof.
  intros H. unfold age_factor, f_is_geriatric.
  destruct (80 <=? f_patient_age f) eqn:E1, (65 <=? f_patient_age f) eqn:E2,
    (80 <=? f_patient_age g) eqn:E3, (65 <=? f_patient_age g) eqn:E4;
    try (split; discriminate);
    rewrite ?Z.leb_le, ?Z.leb_gt in *; lia.
Qed.

Lemma flag_factor_mono (b1 b2 : bool) (k : Q) :
  (1 <= k)%Q -> (b1 = true -> b2 = true) ->
  (1 <= (if b1 then k else 1) /\ (if b1 then k else 1) <= (if b2 then k else 1))%Q.
Proof.
  intros Hk Himp. destruct b1, b2; try (split; lra);
    specialize (Himp eq_refl); discriminate Himp.
Qed.

Lemma escalation_factor_mono (f g : Features) :
  escalates f g ->
  (1 <= escalation_factor f /\ escalation_factor f <= escalation_factor g)%Q.
Proof.
  intros [_ _ _ _ _ _ Hage Hdrugs Hrenal Hhepatic].
  destruct (age_factor_mono f g Hage) as [A1 A2].
  destruct (flag_factor_mono (f_has_renal_impairment f)
              (f_has_renal_impairment g) 1.25 ltac:(discriminate) Hrenal)
    as [R1 R2].
  destruct (flag_factor_mono (f_has_hepatic_impairment f)
              (f_has_hepatic_impairment g) 1.25 ltac:(discriminate) Hhepatic)
    as [H1 H2].
  assert (Hpoly : f_polypharmacy f = true -> f_polypharmacy g = true).
  { unfold f_polypharmacy. rewrite !Z.leb_le. lia. }
  destruct (flag_factor_mono (f_polypharmacy f) (f_polypharmacy g) 1.2
              ltac:(discriminate) Hpoly) as [P1 P2].
  unfold escalation_factor, renal_factor, hepatic_factor, polypharmacy_factor.
  set (a1 := age_factor f) in *. set (a2 := age_factor g) in *.
  set (r1 := if f_has_renal_impairment f then _ else _) in *.
  set (r2 := if f_has_renal_impairment g then _ else _) in *.
  set (h1 := if f_has_hepatic_impairment f then _ else _) in *.
  set (h2 := if f_has_hepatic_impairment g then _ else _) in *.
  set (p1 := if f_polypharmacy f then _ else _) in *.
  set (p2 := if f_polypharmacy g then _ else _) in *.
  split.
  - assert (1 <= a1 * r1)%Q by nra.
    assert (1 <= a1 * r1 * h1)%Q by nra. nra.
  - repeat apply Qmult_le_both; try assumption; try lra.
    + assert (0 <= a1 * r1)%Q by nra. nra.
    + nra.
Qed.

(** X7.  The score never goes down when a case escalates: with non-negative
    weighted interactions, higher counts, a higher age, more drugs and added
    impairments give a score at least as high, before and after the cap. *)
Theorem risk_score_escalates (f g : Features) :
  escalates f g ->
  (0 <= weighted_interactions f)%Q ->
  (pre_clamp_risk_score f <= pre_clamp_risk_score g)%Q
  /\ (rule_based_risk_score f <= rule_based_risk_score g)%Q.
Proof.
  intros Hesc Hw.
  assert (Hpre : (pre_clamp_risk_score f <= pre_clamp_risk_score g)%Q).
  { rewrite !pre_clamp_decomposition.
    destruct (escalation_factor_mono f g Hesc) as [E1 E2].
    destruct Hesc as [Hc Hs Hg Hm Ha Hch _ _ _ _].
    assert (Hww : (weighted_interactions f <= weighted_interactions g)%Q).
    { unfold weighted_interactions. rewrite <- Zle_Qle. lia. }
    assert (Haa : (inject_Z (f_num_allergies f * 10)
                   <= inject_Z (f_num_allergies g * 10))%Q)
      by (rewrite <- Zle_Qle; lia).
    assert (Hcc : (inject_Z (f_num_chronic_conditions f * 3)
                   <= inject_Z (f_num_chronic_conditions g * 3))%Q)
      by (rewrite <- Zle_Qle; lia).
    assert (Hprod : (weighted_interactions f * escalation_factor f
                     <= weighted_interactions g * escalation_factor g)%Q).
    { apply Qmult_le_both; try assumption. lra. }
    lra. }
  split; [exact Hpre|].
  unfold rule_based_risk_score. apply Q.min_le_compat_r. exact Hpre.
Qed.

Lemma cap_bounds (p k c : Q) :
  (0 <= p)%Q -> (0 <= k)%Q -> (0 <= c)%Q ->
  (0 <= Qmin (p * k) c /\ Qmin (p * k) c <= c)%Q.
Proof.
  intros Hp Hk Hc. split; [|apply Q.le_min_r].
  apply Q.min_glb; [|exact Hc]. apply Qmult_le_0_compat; assumption.
Qed.

(** X8.  For a score between 0 and 100 the base probability is between 0 and 1;
    it is at most 0.95 when a contraindicated interaction exists and at most
    0.90 for a patient of 65 or more or with an organ impairment. *)
Theorem base_probability_caps (f : Features) (rs : Q) :
  (0 <= rs)%Q -> (rs <= 100)%Q ->
  (0 <= base_probability f rs /\ base_probability f rs <= 1)%Q
  /\ (0 < f_num_contraindicated f -> (base_probability f rs <= 0.95)%Q)
  /\ (65 <= f_patient_age f \/ f_has_renal_impairment f = true
      \/ f_has_hepatic_impairment f = true ->
      (base_probability f rs <= 0.90)%Q).
Proof.
  intros Hlo Hhi. unfold base_probability, f_is_geriatric. cbv zeta.
  set (p0 := (rs / 100)%Q).
  assert (B0 : (0 <= p0 /\ p0 <= 1)%Q).
  { subst p0. split.
    - apply Qle_shift_div_l; [reflexivity|]. lra.
    - apply Qle_shift_div_r; [reflexivity|]. lra. }
  set (p1 := if 0 <? f_num_contraindicated f then _ else _).
  assert (B1 : (0 <= p1 /\ p1 <= 1)%Q
               /\ (0 < f_num_contraindicated f -> (p1 <= 0.95)%Q)).
  { subst p1. destruct (0 <? f_num_contraindicated f) eqn:Ec.
    - pose proof (cap_bounds p0 2.5 0.95 ltac:(lra) ltac:(discriminate)
                  ltac:(discriminate)) as [L U].
      repeat split; try lra.
    - apply Z.ltb_ge in Ec. split; [|lia].
      destruct (0 <? f_num_serious f).
      + pose proof (cap_bounds p0 1.8 0.85 ltac:(lra) ltac:(discriminate)
                  ltac:(discriminate)) as [L U].
        split; lra.
      + exact B0. }
  destruct B1 as [[L1 U1] C1].
  set (p2 := if 65 <=? f_patient_age f then _ else _).
  assert (B2 : (0 <= p2 /\ p2 <= 1)%Q
               /\ (0 < f_num_contraindicated f -> (p2 <= 0.95)%Q)
               /\ (65 <= f_patient_age f -> (p2 <= 0.90)%Q)).
  { subst p2. destruct (65 <=? f_patient_age f) eqn:Eg.
    - pose proof (cap_bounds p1 1.3 0.90 ltac:(lra) ltac:(discriminate)
                  ltac:(discriminate)) as [L U].
      repeat split; try lra; intros _; lra.
    - apply Z.leb_gt in Eg. repeat split; try assumption; lia. }
  destruct B2 as [[L2 U2] [C2 G2]].
  destruct (f_has_renal_impairment f || f_has_hepatic_impairment f) eqn:Ei.
  - pose proof (cap_bounds p2 1.2 0.90 ltac:(lra) ltac:(discriminate)
                  ltac:(discriminate)) as [L U].
    repeat split; try lra; intros _; lra.
  - apply orb_false_iff in Ei. destruct Ei as [Er Eh].
    repeat split; try assumption.
    intros [H|[H|H]]; [auto|congruence|congruence].
Qed.

(** ** The drugs of a generated record *)

Section SampledDrugs.

Context {NP : NumpyRandom} {PR : PyRandom}.

(** What [random.sample] promises beyond the length of its result: distinct
    positions of the population, so distinct members when the population
    has no duplicates. *)
Hypothesis sample_without_replacement :
  forall (pop : list string) (k : nat) (s : py_state),
    NoDup pop -> (k <= List.length pop)%nat ->
    NoDup (fst (py_sample pop k s)) /\ incl (fst (py_sample pop k s)) pop.

(** X6.  The drugs of a generated record are distinct members of the 15-drug
    vocabulary, and their identifiers number them from DRUG_0 in order. *)
Theorem drugs_checked_are_distinct_vocabulary (clock : nat -> datetime) (n : Z)
    (training_data : list Example) (e : Example) :
  generate_synthetic_training_data clock n = Ok training_data ->
  In e training_data ->
  NoDup (map drug_name (drugs_checked e))
  /\ incl (map drug_name (drugs_checked e)) common_drugs
  /\ map drug_id (drugs_checked e)
     = map (fun j => String.append "DRUG_" (str j))
           (seq 0 (List.length (drugs_checked e))).
Proof.
  intros Hrun Hin. apply In_nth_error in Hin. destruct Hin as [i Hnth].
  destruct (generated_built clock n training_data i e Hrun Hnth)
    as (f & fp & label & days & Hinv & Hshape & _ & _ & _ & ->).
  rewrite make_example_num_drugs.
  cbn [make_example drugs_checked]. rewrite !map_map. cbn [drug_name drug_id].
  assert (Hnames : map (fun jd : nat * string => snd jd)
                       (enumerate (f_selected_drugs f))
                   = f_selected_drugs f) by apply enumerate_from_snd.
  rewrite Hnames.
  destruct (shape_selected f Hshape) as [s Hs].
  destruct (sample_without_replacement common_drugs
              (Z.to_nat (f_num_drugs f)) s common_drugs_NoDup) as [Hnd Hincl].
  { pose proof (inv_num_drugs f Hinv). simpl. lia. }
  rewrite <- Hs in Hnd, Hincl.
  split; [exact Hnd|]. split; [exact Hincl|].
  rewrite <- (enumerate_from_fst (f_selected_drugs f) 0), map_map.
  reflexivity.
Qed.

End SampledDrugs.

(** ** More about [save_training_data] *)

Lemma read_write_same (name : string) (c : file_content) (fs : FileSystem) :
  read_file name (write_file name c fs) = Some c.
Proof.
  unfold read_file, write_file, lookup. cbn [find fst].
  rewrite String.eqb_refl. reflexivity.
Qed.

Lemma read_write_other (name other : string) (c : file_content)
    (fs : FileSystem) :
  other <> name ->
  read_file other (write_file name c fs) = read_file other fs.
Proof.
  intros Hne. unfold read_file, write_file, lookup. cbn [find fst].
  apply String.eqb_neq in Hne. rewrite Hne. f_equal.
  induction fs as [|[n' c'] fs IH]; [reflexivity|]. cbn [filter find fst].
  destruct (String.eqb name n') eqn:En; cbn [negb].
  - apply String.eqb_eq in En. subst n'. rewrite Hne. exact IH.
  - cbn [find fst]. destruct (String.eqb other n'); [reflexivity|exact IH].
Qed.

Lemma replace_from_absent (old new s : string) :
  occurs old s = false -> replace_from old new 0 s = s.
Proof.
  induction s as [|c s IH]; intros H; [reflexivity|].
  cbn [occurs] in H. apply orb_false_iff in H. destruct H as [Hp Ho].
  cbn [replace_from]. rewrite Hp, (IH Ho). reflexivity.
Qed.

(** X9.  For any file name: the table is written under the name with every
    ".json" replaced by ".csv"; the JSON document stays readable when that
    name differs from the file name, and is overwritten by the table when it
    does not, which is the case for every file name without ".json". *)
Theorem save_training_data_files (training_data : list Example)
    (filename : string) (fs : FileSystem) :
  let csv_filename := replace ".json" ".csv" filename in
  let table := CsvTable (make_DataFrame (map csv_row training_data)) in
  let fs' := save_training_data training_data filename fs in
  read_file csv_filename fs' = Some table
  /\ (csv_filename <> filename ->
      read_file filename fs' = Some (JsonDocument training_data))
  /\ (occurs ".json" filename = false ->
      csv_filename = filename /\ read_file filename fs' = Some table).
Proof.
  cbv zeta. unfold save_training_data. split; [apply read_write_same|]. split.
  - intros Hne. rewrite read_write_other by congruence.
    apply read_write_same.
  - intros Habsent. unfold replace.
    rewrite (replace_from_absent _ _ _ Habsent).
    split; [reflexivity|apply read_write_same].
Qed.

Lemma round_half_even_close (y : Q) :
  (y - 0.5 <= inject_Z (round_half_even y)
   /\ inject_Z (round_half_even y) <= y + 0.5)%Q.
Proof.
  unfold round_half_even. cbv zeta.
  pose proof (Qfloor_le y) as Hlo. pose proof (Qlt_floor y) as Hhi.
  rewrite inject_Z_plus in Hhi. change (inject_Z 1) with 1%Q in Hhi.
  destruct (Qltb (y - inject_Z (Qfloor y)) 0.5) eqn:E1.
  - apply Qltb_true in E1. split; lra.
  - destruct (Qltb 0.5 (y - inject_Z (Qfloor y))) eqn:E2.
    + apply Qltb_true in E2. rewrite inject_Z_plus.
      change (inject_Z 1) with 1%Q. split; lra.
    + assert (H1 : ~ (y - inject_Z (Qfloor y) < 0.5)%Q)
        by (intros H; apply Qltb_true in H; congruence).
      assert (H2 : ~ (0.5 < y - inject_Z (Qfloor y))%Q)
        by (intros H; apply Qltb_true in H; congruence).
      apply Qnot_lt_le in H1, H2.
      destruct (Z.even (Qfloor y)).
      * split; lra.
      * rewrite inject_Z_plus. change (inject_Z 1) with 1%Q. split; lra.
Qed.

(** X11.  The score in the table is a whole number of tenths and differs from the
    stored score by at most 0.05. *)
Theorem csv_risk_score_rounding (e : Example) :
  exists q tenths,
    lookup "risk_score" (csv_row e) = Some (CFloat q)
    /\ (q == inject_Z tenths / 10)%Q
    /\ (risk_score e - 0.05 <= q /\ q <= risk_score e + 0.05)%Q.
Proof.
  exists (round1 (risk_score e)), (round_half_even (risk_score e * 10)).
  split; [reflexivity|]. split; [reflexivity|].
  unfold round1.
  destruct (round_half_even_close (risk_score e * 10)) as [Hlo Hhi].
  split.
  - apply Qle_shift_div_l; [reflexivity|]. lra.
  - apply Qle_shift_div_r; [reflexivity|]. lra.
Qed.

(** ** [analyze_training_data] and the generator script *)

Module AnalyzeFacts.

Import Analyze.

Section Report.

Variable np_std : list Q -> Q.

(** The report on a non-empty list: nine lines, no exception. *)
Lemma analyze_nonempty (ex : Example) (rest : list Example) :
  let training_data := ex :: rest in
  let total := List.length training_data in
  let adverse_events := Zsum (map adverse_event_occurred training_data) in
  exists pa pn scores severity demographics medication,
    analyze_training_data np_std training_data []
    = (Ok tt,
       [StatsHeader; OverallTotal total;
        OverallAdverse adverse_events pa;
        OverallNoEvents (Z.of_nat total - adverse_events) pn;
        scores; severity; demographics; medication; StatsFooter])
    /\ (pa == inject_Z adverse_events / inject_Z (Z.of_nat total) * 100)%Q
    /\ (pn == inject_Z (Z.of_nat total - adverse_events)
              / inject_Z (Z.of_nat total) * 100)%Q.
Proof.
  cbv zeta. do 6 eexists. split; [|split; reflexivity].
  unfold analyze_training_data.
  cbn [out_bind say percent_of out_ret List.length Nat.eqb map app].
  reflexivity.
Qed.


Context {NP : NumpyRandom} {PR : PyRandom}.

(** X14.  The main block of the generator script runs to the end: it generates
    2000 records, prints the nine-line report, and leaves the JSON document
    with those 2000 records and a table with 2000 rows. *)
Theorem main_writes_2000_examples (clock : nat -> datetime) (fs : FileSystem) :
  exists training_data report df,
    main np_std clock fs
    = (Ok (save_training_data training_data default_filename fs), report)
    /\ generate_synthetic_training_data clock 2000 = Ok training_data
    /\ List.length training_data = 2000%nat
    /\ List.length report = 9%nat
    /\ read_file "training_data.json"
         (save_training_data training_data default_filename fs)
       = Some (JsonDocument training_data)
    /\ read_file "training_data.csv"
         (save_training_data training_data default_filename fs)
       = Some (CsvTable df)
    /\ List.length (values df) = 2000%nat.
Proof.
  destruct (generate_ok clock 2000) as (training_data & Hrun & Hlen & _).
  change (Z.to_nat 2000) with 2000%nat in Hlen.
  destruct training_data as [|ex rest]; [discriminate Hlen|].
  destruct (analyze_nonempty ex rest) as (pa & pn & s & v & d & m & H & _).
  cbv zeta in H.
  eexists (ex :: rest), _, (make_DataFrame (map csv_row (ex :: rest))).
  unfold main. rewrite Hrun, H.
  split; [reflexivity|]. split; [reflexivity|]. split; [exact Hlen|].
  split; [reflexivity|].
  unfold save_training_data.
  change (replace ".json" ".csv" default_filename)
    with "training_data.csv"%string.
  split; [reflexivity|]. split; [reflexivity|].
  rewrite make_DataFrame_values, length_map. exact Hlen.
Qed.

End Report.

End AnalyzeFacts.

(** ** More about the training driver *)

Module DriverExtras.

Import Driver.

Lemma has_key_lookup {V} (k : string) (d : list (string * V)) :
  existsb (fun kv => String.eqb k (fst kv)) d = false -> lookup k d = None.
Proof.
  unfold lookup. induction d as [|[k' v] d IH]; [reflexivity|].
  cbn [existsb find fst]. intros H. apply orb_false_iff in H.
  destruct H as [Hk Hd]. rewrite Hk. apply IH. exact Hd.
Qed.

(** Once the data is loaded, validated and summarised, the driver is inside
    its [try] statement, and has only printed so far. *)
Lemma train_model_reaches_try (env : Environment) (training_data : list dict)
    (adverse_events : Q) :
  load_training_data env = Ok training_data ->
  first_missing_field (enumerate (firstn 5 training_data)) = None ->
  sum_adverse_events 0 training_data = Ok adverse_events ->
  training_data <> [] ->
  exists before,
    forallb is_print before = true
    /\ run (train_model env)
       = try_except_Exception (training_steps env training_data)
           training_failed before.
Proof.
  intros Hload Hvalid Hsum Hne.
  unfold run, train_model. rewrite Hload, Hvalid.
  unfold io_bind at 1 2 3 4 5. cbn [print emit app].
  unfold lift at 1. rewrite Hsum.
  destruct training_data as [|ex rest]; [congruence|].
  cbn [List.length Nat.eqb]. unfold io_bind at 1 2. cbn [io_ret print emit app].
  unfold io_bind at 1. cbn [print emit].
  unfold io_bind at 1.
  destruct (_ || _); cbn [print emit]; unfold io_bind at 1; cbn [print emit];
    eexists; (split; [|reflexivity]); reflexivity.
Qed.

(** Before its [try] statement the driver calls nothing: every other way
    through [train_model] leaves a trace of printed messages only. *)
Lemma train_model_before_try (env : Environment) :
  (exists training_data adverse_events,
      load_training_data env = Ok training_data
      /\ first_missing_field (enumerate (firstn 5 training_data)) = None
      /\ sum_adverse_events 0 training_data = Ok adverse_events
      /\ training_data <> [])
  \/ (forallb is_print (snd (run (train_model env))) = true
      /\ (forall e, fst (run (train_model env)) = Raise e ->
            (load_training_data env = Raise e
             /\ e <> FileNotFoundError /\ e <> JSONDecodeError)
            \/ (exists training_data,
                   load_training_data env = Ok training_data
                   /\ first_missing_field
                        (enumerate (firstn 5 training_data)) = None
                   /\ (sum_adverse_events 0 training_data = Raise e
                       \/ (training_data = [] /\ e = ZeroDivisionError))))).
Proof.
  destruct (load_training_data env) as [training_data|e0] eqn:Hload.
  - destruct (first_missing_field (enumerate (firstn 5 training_data)))
      as [[idx field]|] eqn:Hvalid.
    + right. unfold run, train_model. rewrite Hload, Hvalid.
      split; [reflexivity|]. intros e He. discriminate He.
    + destruct (sum_adverse_events 0 training_data) as [a|e1] eqn:Hsum.
      * destruct training_data as [|ex rest].
        -- right. unfold run, train_model. rewrite Hload, Hvalid.
           unfold io_bind at 1 2 3 4 5. cbn [print emit app].
           unfold lift at 1. rewrite Hsum.
           split; [reflexivity|]. intros e He.
           cbn in He. injection He as <-.
           right. exists []. repeat split; auto.
        -- left. exists (ex :: rest), a. repeat split; auto. discriminate.
      * right. unfold run, train_model. rewrite Hload, Hvalid.
        unfold io_bind at 1 2 3 4 5. cbn [print emit app].
        unfold lift at 1. rewrite Hsum.
        split; [reflexivity|]. intros e He.
        cbn in He. injection He as <-.
        right. exists training_data. repeat split; auto.
  - right. unfold run, train_model. rewrite Hload.
    destruct e0; (split; [reflexivity|]); intros e He;
      cbn in He; try discriminate He; injection He as <-;
      left; repeat split; try reflexivity; discriminate.
Qed.

Lemma prints_are_no_train_calls (t : list event) :
  forallb is_print t = true -> existsb is_train_call t = false.
Proof.
  induction t as [|ev t IH]; [reflexivity|]. cbn [forallb existsb].
  intros H. apply andb_true_iff in H. destruct H as [Hev Ht].
  rewrite (IH Ht). destruct ev; try discriminate Hev; reflexivity.
Qed.

(** Every way through the body of the [try] statement (lines 81-143). *)
Lemma training_steps_cases (env : Environment) (training_data : list dict)
    (t : list event) :
  match rp_train_model env training_data with
  | Raise e =>
      training_steps env training_data t
      = (Raise e, t ++ [CallTrainModel training_data])
  | Ok metrics =>
      exists middle,
        forallb is_print middle = true
        /\ if training_samples metrics + test_samples metrics =? 0
           then training_steps env training_data t
                = (Raise ZeroDivisionError,
                   t ++ CallTrainModel training_data :: middle)
           else
             In (Print MsgModelSaved) middle
             /\ match training_data with
                | [] =>
                    training_steps env training_data t
                    = (Raise IndexError,
                       t ++ CallTrainModel training_data :: middle)
                | ex :: _ =>
                    match rp_predict_risk env ex with
                    | Raise e =>
                        training_steps env training_data t
                        = (Raise e,
                           t ++ CallTrainModel training_data
                             :: middle ++ [CallPredictRisk ex])
                    | Ok r =>
                        training_steps env training_data t
                        = (Ok tt,
                           t ++ CallTrainModel training_data
                             :: middle
                             ++ [CallPredictRisk ex;
                                 Print (MsgSamplePrediction r);
                                 Print MsgTrainingSuccessful])
                    end
                end
  end.
Proof.
  unfold training_steps, io_bind, lift, print, emit, io_raise, io_ret.
  destruct (rp_train_model env training_data) as [metrics|e]; [|reflexivity].
  destruct (training_samples metrics + test_samples metrics =? 0).
  - eexists [_]. split; cycle 1.
    + rewrite <- !app_assoc. cbn [app]. reflexivity.
    + reflexivity.
  - destruct (rp_feature_importance env) as [|fi rest_fi];
      [eexists [_; _; _; _]|eexists [_; _; _; _; _]];
      (split; cycle 1;
       [split; cycle 1;
        [destruct training_data as [|ex rest];
         [|destruct (rp_predict_risk env ex)];
         rewrite <- !app_assoc; cbn [app]; reflexivity
        |simpl; tauto]
       |reflexivity]).
Qed.

(** X16.  The driver calls the predictor only on data it accepted: a training
    call in the trace means the file loaded, each of the first five examples
    has the required fields, every label could be summed and the data is
    not empty. *)
Theorem training_only_after_validation (env : Environment) :
  existsb is_train_call (snd (run (train_model env))) = true ->
  exists training_data adverse_events,
    load_training_data env = Ok training_data
    /\ first_missing_field (enumerate (firstn 5 training_data)) = None
    /\ sum_adverse_events 0 training_data = Ok adverse_events
    /\ training_data <> [].
Proof.
  intros Hcall.
  destruct (train_model_before_try env) as [H|[Hprints _]]; [exact H|].
  apply prints_are_no_train_calls in Hprints. congruence.
Qed.

(** X18.  An empty data set passes the validation and then makes the driver
    divide by zero: [train_model] raises [ZeroDivisionError] before any
    training, and the main block reports it as an unexpected error and ends
    normally. *)
Theorem empty_training_data_divides_by_zero (env : Environment) :
  load_training_data env = Ok [] ->
  run (train_model env)
  = (Raise ZeroDivisionError,
     [Print MsgBanner; Print MsgLoading; Print (MsgLoaded 0);
      Print MsgValidating; Print MsgStructureValid])
  /\ run (main env)
     = (Ok tt,
        [Print MsgBanner; Print MsgLoading; Print (MsgLoaded 0);
         Print MsgValidating; Print MsgStructureValid;
         Print (MsgUnexpectedError ZeroDivisionError);
         Print (MsgTraceback ZeroDivisionError)]).
Proof.
  intros Hload. unfold run, main, train_model. rewrite Hload.
  split; reflexivity.
Qed.

Lemma sum_adverse_events_unlabeled (training_data : list dict) :
  forall (acc : Q) (example : dict),
    In example training_data ->
    has_key "adverse_event_occurred" example = false ->
    exists e,
      sum_adverse_events acc training_data = Raise e
      /\ (e = KeyError "adverse_event_occurred" \/ e = TypeError).
Proof.
  induction training_data as [|ex rest IH]; intros acc example Hin Hkey;
    [contradiction|].
  cbn [sum_adverse_events]. destruct Hin as [->|Hin].
  - rewrite (has_key_lookup _ _ Hkey). eauto.
  - destruct (lookup "adverse_event_occurred" ex) as [[z|q|b|]|];
      eauto using IH.
Qed.

(** X19.  The validation does not protect the class-balance computation: when
    the first five examples are complete but a later one has no label,
    [train_model] raises ([KeyError], or [TypeError] if an earlier label is
    not a number) and the predictor is never called. *)
Theorem unlabeled_example_after_validation (env : Environment)
    (training_data : list dict) (example : dict) :
  load_training_data env = Ok training_data ->
  first_missing_field (enumerate (firstn 5 training_data)) = None ->
  In example training_data ->
  has_key "adverse_event_occurred" example = false ->
  exists e,
    fst (run (train_model env)) = Raise e
    /\ (e = KeyError "adverse_event_occurred" \/ e = TypeError)
    /\ existsb is_train_call (snd (run (train_model env))) = false.
Proof.
  intros Hload Hvalid Hin Hkey.
  destruct (sum_adverse_events_unlabeled training_data 0 example Hin Hkey)
    as (e & Hsum & He).
  exists e. unfold run, train_model. rewrite Hload, Hvalid.
  unfold io_bind at 1 2 3 4 5. cbn [print emit app].
  unfold lift at 1. rewrite Hsum.
  split; [reflexivity|]. split; [exact He|reflexivity].
Qed.

(** X21.  When training and the sample prediction succeed, the driver calls the
    predictor twice and nothing else: [train_model] on the whole data, then
    [predict_risk] on the first example; it ends with the success
    message. *)
Theorem successful_training_run (env : Environment) (example : dict)
    (rest : list dict) (adverse_events : Q) (metrics : Metrics)
    (result : PredictionResult) :
  let training_data := example :: rest in
  load_training_data env = Ok training_data ->
  first_missing_field (enumerate (firstn 5 training_data)) = None ->
  sum_adverse_events 0 training_data = Ok adverse_events ->
  rp_train_model env training_data = Ok metrics ->
  training_samples metrics + test_samples metrics <> 0 ->
  rp_predict_risk env example = Ok result ->
  exists before middle,
    forallb is_print before = true
    /\ forallb is_print middle = true
    /\ run (train_model env)
       = (Ok tt,
          before ++ CallTrainModel training_data
            :: middle ++ [CallPredictRisk example;
                          Print (MsgSamplePrediction result);
                          Print MsgTrainingSuccessful]).
Proof.
  cbv zeta. intros Hload Hvalid Hsum Htrain Hsamples Hpredict.
  destruct (train_model_reaches_try env (example :: rest) adverse_events
              Hload Hvalid Hsum ltac:(discriminate))
    as (before & Hbefore & Hrun).
  pose proof (training_steps_cases env (example :: rest) before) as Hcases.
  rewrite Htrain in Hcases. destruct Hcases as (middle & Hmiddle & Hcases).
  apply Z.eqb_neq in Hsamples. rewrite Hsamples, Hpredict in Hcases.
  destruct Hcases as [_ Hbody].
  exists before, middle. split; [exact Hbefore|]. split; [exact Hmiddle|].
  rewrite Hrun. unfold try_except_Exception. rewrite Hbody. reflexivity.
Qed.

(** X22.  A failure after the model was trained is still reported as a training
    failure: when [train_model] of the predictor succeeded but the sample
    prediction raises an instance of [Exception], the driver has already
    printed that the model was saved, then prints the training error and the
    troubleshooting checklist, and returns normally. *)
Theorem failed_sample_prediction_reported (env : Environment)
    (example : dict) (rest : list dict) (adverse_events : Q)
    (metrics : Metrics) (e : exn) :
  let training_data := example :: rest in
  load_training_data env = Ok training_data ->
  first_missing_field (enumerate (firstn 5 training_data)) = None ->
  sum_adverse_events 0 training_data = Ok adverse_events ->
  rp_train_model env training_data = Ok metrics ->
  training_samples metrics + test_samples metrics <> 0 ->
  rp_predict_risk env example = Raise e ->
  is_Exception e = true ->
  exists before middle,
    In (Print MsgModelSaved) middle
    /\ run (train_model env)
       = (Ok tt,
          before ++ CallTrainModel training_data
            :: middle ++ [CallPredictRisk example;
                          Print (MsgErrorDuringTraining e);
                          Print MsgTroubleshooting;
                          Print (MsgTraceback e)]).
Proof.
  cbv zeta. intros Hload Hvalid Hsum Htrain Hsamples Hpredict Hexc.
  destruct (train_model_reaches_try env (example :: rest) adverse_events
              Hload Hvalid Hsum ltac:(discriminate))
    as (before & Hbefore & Hrun).
  pose proof (training_steps_cases env (example :: rest) before) as Hcases.
  rewrite Htrain in Hcases. destruct Hcases as (middle & Hmiddle & Hcases).
  apply Z.eqb_neq in Hsamples. rewrite Hsamples, Hpredict in Hcases.
  destruct Hcases as [Hsaved Hbody].
  exists before, middle. split; [exact Hsaved|].
  rewrite Hrun. unfold try_except_Exception. rewrite Hbody, Hexc.
  unfold training_failed, io_bind, print, emit.
  f_equal. rewrite <- !app_assoc. cbn [app]. rewrite <- !app_assoc. reflexivity.
Qed.

End DriverExtras.

(** ** Instances of the further properties *)

Lemma Lcg_sample_without_replacement (pop : list string) (k : nat) (s : Z) :
  NoDup pop -> (k <= List.length pop)%nat ->
  NoDup (fst (Lcg.sample pop k s)) /\ incl (fst (Lcg.sample pop k s)) pop.
Proof.
  intros Hnd _. unfold Lcg.sample; cbn [fst].
  set (r := Z.to_nat (Lcg.next s mod Z.of_nat (List.length pop))).
  assert (Hperm : Permutation (Lcg.rotate r pop) pop).
  { unfold Lcg.rotate. rewrite Permutation_app_comm, firstn_skipn.
    reflexivity. }
  assert (Hrot : NoDup (Lcg.rotate r pop)).
  { apply (Permutation_NoDup (Permutation_sym Hperm) Hnd). }
  split.
  - rewrite <- (firstn_skipn k (Lcg.rotate r pop)) in Hrot.
    apply NoDup_app_remove_r in Hrot. exact Hrot.
  - intros x Hx. apply (Permutation_in x Hperm).
    rewrite <- (firstn_skipn k (Lcg.rotate r pop)).
    apply in_or_app. left. exact Hx.
Qed.

(** Ranges on the first record of a concrete run. *)
Lemma generated_outcome_ranges_witness :
  exists training_data e,
    @generate_synthetic_training_data Lcg.numpy Lcg.python (Lcg.ticking 0) 2
    = Ok training_data
    /\ In e training_data
    /\ (0 <= risk_score e /\ risk_score e <= 100)%Q
    /\ (0 <= adverse_event_probability e /\ adverse_event_probability e <= 1)%Q
    /\ (adverse_event_occurred e = 0 \/ adverse_event_occurred e = 1).
Proof.
  eexists. eexists.
  split; [vm_compute; reflexivity|]. split; [left; reflexivity|].
  eapply (@generated_outcome_ranges Lcg.numpy Lcg.python (Lcg.ticking 0) 2);
    [vm_compute; reflexivity|left; reflexivity].
Defined.

(** The age group of the second record of a concrete run. *)
Lemma age_group_matches_age_witness :
  exists training_data e,
    @generate_synthetic_training_data Lcg.numpy Lcg.python (Lcg.ticking 0) 2
    = Ok training_data
    /\ In e training_data
    /\ ((age_group e = "young"%string /\ 18 <= patient_age e <= 40)
        \/ (age_group e = "middle"%string /\ 40 <= patient_age e <= 65)
        \/ (age_group e = "elderly"%string /\ 65 <= patient_age e <= 95)).
Proof.
  eexists. eexists.
  split; [vm_compute; reflexivity|]. split; [right; left; reflexivity|].
  eapply (@age_group_matches_age Lcg.numpy Lcg.python (Lcg.ticking 0) 2);
    [vm_compute; reflexivity|right; left; reflexivity].
Defined.

(** The dependent counts of the first record of a concrete run. *)
Lemma counts_follow_drug_count_witness :
  exists training_data e,
    @generate_synthetic_training_data Lcg.numpy Lcg.python (Lcg.ticking 0) 2
    = Ok training_data
    /\ In e training_data
    /\ (Z.of_nat (List.length (drugs_checked e)) < 5 ->
        CONTRAINDICATED (severity_summary e) <= 1).
Proof.
  eexists. eexists.
  split; [vm_compute; reflexivity|]. split; [left; reflexivity|].
  refine (proj1 (proj2
    (@counts_follow_drug_count Lcg.numpy Lcg.python (Lcg.ticking 0) 2
       _ _ _ _))); [vm_compute; reflexivity|left; reflexivity].
Defined.

(** The timestamp of the second record of a concrete run. *)
Lemma generated_at_within_a_year_witness :
  exists training_data e,
    @generate_synthetic_training_data Lcg.numpy Lcg.python (Lcg.ticking 0) 2
    = Ok training_data
    /\ nth_error training_data 1 = Some e
    /\ Lcg.ticking 0 1 - timedelta_days 365 <= generated_at e <= Lcg.ticking 0 1.
Proof.
  eexists. eexists.
  split; [vm_compute; reflexivity|]. split; [reflexivity|].
  eapply (@generated_at_within_a_year Lcg.numpy Lcg.python (Lcg.ticking 0) 2);
    [vm_compute; reflexivity|reflexivity].
Defined.

(** One record, then two, under clocks that agree on the first reading. *)
Lemma longer_run_extends_shorter_witness :
  exists short long,
    @generate_synthetic_training_data Lcg.numpy Lcg.python (Lcg.ticking 0) 1
    = Ok short
    /\ @generate_synthetic_training_data Lcg.numpy Lcg.python
         Lcg.restarted_clock 2 = Ok long
    /\ firstn (Z.to_nat 1) long = short.
Proof.
  eexists. eexists.
  split; [vm_compute; reflexivity|]. split; [vm_compute; reflexivity|].
  eapply (@longer_run_extends_shorter Lcg.numpy Lcg.python
            (Lcg.ticking 0) Lcg.restarted_clock 1 2).
  - lia.
  - intros i Hi. destruct i as [|i]; [reflexivity|]. simpl in Hi. lia.
  - vm_compute. reflexivity.
  - vm_compute. reflexivity.
Defined.

(** The drugs of the first record of a concrete run. *)
Lemma drugs_checked_are_distinct_vocabulary_witness :
  exists training_data e,
    @generate_synthetic_training_data Lcg.numpy Lcg.python (Lcg.ticking 0) 2
    = Ok training_data
    /\ In e training_data
    /\ NoDup (map drug_name (drugs_checked e))
    /\ incl (map drug_name (drugs_checked e)) common_drugs.
Proof.
  eexists. eexists.
  split; [vm_compute; reflexivity|]. split; [left; reflexivity|].
  pose proof (@drugs_checked_are_distinct_vocabulary Lcg.numpy Lcg.python
                Lcg_sample_without_replacement (Lcg.ticking 0) 2) as H.
  edestruct H as (Hnd & Hincl & _);
    [vm_compute; reflexivity|left; reflexivity|].
  split; [exact Hnd|exact Hincl].
Defined.

(** Scenario A against the same case at 85 with a renal impairment. *)
Lemma risk_score_escalates_witness :
  (pre_clamp_risk_score Spec.scenario_A
   <= pre_clamp_risk_score Inputs.scenario_A_escalated)%Q
  /\ (rule_based_risk_score Spec.scenario_A
      <= rule_based_risk_score Inputs.scenario_A_escalated)%Q.
Proof.
  apply risk_score_escalates.
  - constructor; simpl; try lia; try discriminate; auto.
  - discriminate.
Defined.

(** Scenario A with its score of 30. *)
Lemma base_probability_caps_witness :
  (0 <= base_probability Spec.scenario_A 30
   /\ base_probability Spec.scenario_A 30 <= 1)%Q
  /\ (0 < f_num_contraindicated Spec.scenario_A ->
      (base_probability Spec.scenario_A 30 <= 0.95)%Q).
Proof.
  destruct (base_probability_caps Spec.scenario_A 30) as (H1 & H2 & _).
  - discriminate.
  - discriminate.
  - split; [exact H1|exact H2].
Defined.

(** A file name without ".json": the table replaces the document. *)
Lemma save_training_data_files_witness :
  replace ".json" ".csv" "data.txt" = "data.txt"%string
  /\ read_file "data.txt"
       (save_training_data [Spec.scenario_A_record] "data.txt" [])
     = Some (CsvTable (make_DataFrame (map csv_row [Spec.scenario_A_record]))).
Proof.
  apply (proj2 (proj2 (save_training_data_files [Spec.scenario_A_record]
                         "data.txt" []))).
  reflexivity.
Defined.


Module DriverExtrasInstances.

Import Driver.

(** A run that reaches the training call. *)
Lemma training_only_after_validation_witness :
  exists training_data adverse_events,
    load_training_data (failing_predictor ValueError [complete_example])
    = Ok training_data
    /\ first_missing_field (enumerate (firstn 5 training_data)) = None
    /\ sum_adverse_events 0 training_data = Ok adverse_events
    /\ training_data <> [].
Proof.
  apply DriverExtras.training_only_after_validation. reflexivity.
Defined.

(** An empty training file. *)
Lemma empty_training_data_divides_by_zero_witness :
  run (train_model (failing_predictor ValueError []))
  = (Raise ZeroDivisionError,
     [Print MsgBanner; Print MsgLoading; Print (MsgLoaded 0);
      Print MsgValidating; Print MsgStructureValid]).
Proof.
  apply (proj1 (DriverExtras.empty_training_data_divides_by_zero
                  (failing_predictor ValueError []) eq_refl)).
Defined.

(** The sixth example has no label. *)
Lemma unlabeled_example_after_validation_witness :
  exists e,
    fst (run (train_model (failing_predictor ValueError Inputs.late_unlabeled)))
    = Raise e
    /\ (e = KeyError "adverse_event_occurred" \/ e = TypeError)
    /\ existsb is_train_call
         (snd (run (train_model
                      (failing_predictor ValueError Inputs.late_unlabeled))))
       = false.
Proof.
  apply (DriverExtras.unlabeled_example_after_validation
           (failing_predictor ValueError Inputs.late_unlabeled)
           Inputs.late_unlabeled unlabeled_example).
  - reflexivity.
  - reflexivity.
  - simpl. tauto.
  - reflexivity.
Defined.

(** Training and prediction both succeed. *)
Lemma successful_training_run_witness :
  exists before middle,
    forallb is_print before = true
    /\ forallb is_print middle = true
    /\ run (train_model
              (Inputs.trained_predictor (Ok Inputs.low_risk)
                 [complete_example; complete_example]))
       = (Ok tt,
          before ++ CallTrainModel [complete_example; complete_example]
            :: middle ++ [CallPredictRisk complete_example;
                          Print (MsgSamplePrediction Inputs.low_risk);
                          Print MsgTrainingSuccessful]).
Proof.
  eapply (DriverExtras.successful_training_run
            (Inputs.trained_predictor (Ok Inputs.low_risk)
               [complete_example; complete_example])
            complete_example [complete_example] _ Inputs.good_metrics).
  - reflexivity.
  - reflexivity.
  - reflexivity.
  - reflexivity.
  - discriminate.
  - reflexivity.
Defined.

(** Training succeeds, the sample prediction raises a [ValueError]. *)
Lemma failed_sample_prediction_reported_witness :
  exists before middle,
    In (Print MsgModelSaved) middle
    /\ run (train_model
              (Inputs.trained_predictor (Raise ValueError) [complete_example]))
       = (Ok tt,
          before ++ CallTrainModel [complete_example]
            :: middle ++ [CallPredictRisk complete_example;
                          Print (MsgErrorDuringTraining ValueError);
                          Print MsgTroubleshooting;
                          Print (MsgTraceback ValueError)]).
Proof.
  eapply (DriverExtras.failed_sample_prediction_reported
            (Inputs.trained_predictor (Raise ValueError) [complete_example])
            complete_example [] _ Inputs.good_metrics ValueError).
  - reflexivity.
  - reflexivity.
  - reflexivity.
  - reflexivity.
  - discriminate.
  - reflexivity.
  - reflexivity.
Defined.

End DriverExtrasInstances.
